(** * RFIDServoController: a shallow embedding of [4BTask-1.py]

    The controller reads card identifiers from a USB RFID reader, looks
    them up in the list of authorized cards and drives two LEDs and a
    servo through JSON lines written to a serial port.

    Python values are modelled as follows.
    - [str] is a list of code points ([N]); [lit] turns the ASCII literals
      of the source into such lists.
    - [int] is [Z] (Python integers are unbounded).
    - the [array('B')] returned by [dev.read] and the [bytes] handed to
      [ser.write] are lists of [byte].
    - [self.config] is a record with one field per key the code reads;
      [led_pins] is a finite map from colour names to pin numbers.
    - the dictionaries passed to [send_command] are values of [json].
    - methods are computations in [M], a state monad over [Controller]
      with Python exceptions; a raised exception keeps the state changes
      made before it, as in Python.
    - the outside world is kept in the state: [trace] records, in order,
      what was printed, every call of [ser.write] and every [time.sleep];
      [faults] tells which calls of [ser.write] raise
      [serial.SerialException]; [stdout] tells which lines the console
      cannot encode.

    Each method is modelled as it runs on its own thread, without the
    other threads touching the state in between.

    Left outside the model: of the lines printed, only the one that
    echoes the card is checked against the console's encoding (the others
    are ASCII literals, messages of the libraries and what was typed at
    this console, which the console is taken to accept),
    [int.__repr__] has no limit on the number of digits,
    and the values of the configuration have the types the defaults have
    (integers for the positions and pins, strings for the cards). *)

From Stdlib Require Import ZArith NArith List Ascii String Decimal Lia.
From Stdlib Require Import DecimalN.
From Stdlib.Strings Require Import Byte.
From stdpp Require Import base option list gmap.

Set Warnings "-register-all".
Local Open Scope Z_scope.

(** ** Strings *)

Abbreviation pystr := (list N).

Fixpoint lit (s : string) : pystr :=
  match s with
  | EmptyString => []
  | String a s' => N_of_ascii a :: lit s'
  end.

(** [str.isspace] on one character: the code points whose bidirectional
    class is WS, B or S, or whose category is Zs. *)
Definition isspace (c : N) : bool :=
  ((9 <=? c) && (c <=? 13) || (28 <=? c) && (c <=? 32) || (c =? 133)
   || (c =? 160) || (c =? 5760) || (8192 <=? c) && (c <=? 8202)
   || (c =? 8232) || (c =? 8233) || (c =? 8239) || (c =? 8287)
   || (c =? 12288))%N.

Fixpoint lstrip (s : pystr) : pystr :=
  match s with
  | [] => []
  | c :: s' => if isspace c then lstrip s' else s
  end.

Definition rstrip (s : pystr) : pystr := rev (lstrip (rev s)).

(** [s.strip()] *)
Definition strip (s : pystr) : pystr := rstrip (lstrip s).

(** ** Exceptions *)

Inductive exn :=
| ValueError (msg : pystr)
| UnicodeEncodeError (msg : pystr)
| SerialException (msg : pystr)
| OtherException (class msg : pystr).

Definition exn_str (e : exn) : pystr :=
  match e with
  | ValueError m | UnicodeEncodeError m | SerialException m => m
  | OtherException _ m => m
  end.

Definition is_SerialException (e : exn) : bool :=
  match e with SerialException _ => true | _ => false end.

(** [chr(i)]: defined on [range(0x110000)]. *)
Definition chr (i : Z) : exn + N :=
  if (0 <=? i) && (i <? 1114112) then inr (Z.to_N i)
  else inl (ValueError (lit "chr() arg not in range(0x110000)")).

(** ** Bytes and UTF-8 *)

Definition to_byte (n : N) : byte :=
  match Byte.of_N (n mod 256) with Some b => b | None => x00 end.

(** [str.encode()] on one character (UTF-8, strict). *)
Definition utf8_char (c : N) : exn + list byte :=
  (if c <? 128 then inr [to_byte c]
   else if c <? 2048 then
     inr [to_byte (N.lor 192 (N.shiftr c 6));
          to_byte (N.lor 128 (N.land c 63))]
   else if (55296 <=? c) && (c <=? 57343) then
     inl (UnicodeEncodeError (lit "surrogates not allowed"))
   else if c <? 65536 then
     inr [to_byte (N.lor 224 (N.shiftr c 12));
          to_byte (N.lor 128 (N.land (N.shiftr c 6) 63));
          to_byte (N.lor 128 (N.land c 63))]
   else
     inr [to_byte (N.lor 240 (N.shiftr c 18));
          to_byte (N.lor 128 (N.land (N.shiftr c 12) 63));
          to_byte (N.lor 128 (N.land (N.shiftr c 6) 63));
          to_byte (N.lor 128 (N.land c 63))])%N.

Fixpoint encode (s : pystr) : exn + list byte :=
  match s with
  | [] => inr []
  | c :: s' =>
      match utf8_char c with
      | inl e => inl e
      | inr bs =>
          match encode s' with
          | inl e => inl e
          | inr rest => inr (bs ++ rest)
          end
      end
  end.

(** ** JSON values and [json.dumps] *)

Inductive json :=
| JBool (b : bool)
| JInt (z : Z)
| JDict (items : list (pystr * json)).

Definition hex_digit (d : N) : N :=
  (if d <? 10 then 48 + d else 87 + d)%N.

(** ['\\u{0:04x}'.format(n)] for [n < 0x10000]. *)
Definition u_escape (n : N) : pystr :=
  (lit "\u" ++ [hex_digit (n / 4096 mod 16); hex_digit (n / 256 mod 16);
                hex_digit (n / 16 mod 16); hex_digit (n mod 16)])%N.

(** The replacement [json.encoder] makes for one character when
    [ensure_ascii] is set: characters from space to tilde stand for
    themselves, except the quote and the backslash. *)
Definition escape_char (c : N) : pystr :=
  (if c =? 34 then lit "\" ++ [34]
   else if c =? 92 then lit "\\"
   else if c =? 10 then lit "\n"
   else if c =? 13 then lit "\r"
   else if c =? 9 then lit "\t"
   else if c =? 8 then lit "\b"
   else if c =? 12 then lit "\f"
   else if (32 <=? c) && (c <=? 126) then [c]
   else if c <? 65536 then u_escape c
   else
     let n := c - 65536 in
     u_escape (N.lor 55296 (N.land (N.shiftr n 10) 1023))
       ++ u_escape (N.lor 56320 (N.land n 1023)))%N.

Definition encode_basestring_ascii (s : pystr) : pystr :=
  [34%N] ++ concat (map escape_char s) ++ [34%N].

Fixpoint uint_digits (u : Decimal.uint) : pystr :=
  match u with
  | Nil => []
  | D0 u' => 48%N :: uint_digits u'
  | D1 u' => 49%N :: uint_digits u'
  | D2 u' => 50%N :: uint_digits u'
  | D3 u' => 51%N :: uint_digits u'
  | D4 u' => 52%N :: uint_digits u'
  | D5 u' => 53%N :: uint_digits u'
  | D6 u' => 54%N :: uint_digits u'
  | D7 u' => 55%N :: uint_digits u'
  | D8 u' => 56%N :: uint_digits u'
  | D9 u' => 57%N :: uint_digits u'
  end.

(** [int.__repr__] *)
Definition repr_int (z : Z) : pystr :=
  if z <? 0 then lit "-" ++ uint_digits (N.to_uint (Z.to_N (- z)))
  else uint_digits (N.to_uint (Z.to_N z)).

Fixpoint dumps (j : json) : pystr :=
  match j with
  | JBool true => lit "true"
  | JBool false => lit "false"
  | JInt z => repr_int z
  | JDict items =>
      lit "{"
      ++ (fix dumps_items (l : list (pystr * json)) : pystr :=
            match l with
            | [] => []
            | (k, v) :: rest =>
                encode_basestring_ascii k ++ lit ": " ++ dumps v
                ++ match rest with
                   | [] => []
                   | _ :: _ => lit ", " ++ dumps_items rest
                   end
            end) items
      ++ lit "}"
  end.

(** ** The controller's state *)

(** [self.config] *)
Record Config := {
  vendor_id : Z;
  product_id : Z;
  authorized_cards : list pystr;
  servo_default_pos : Z;
  servo_allowed_pos : Z;
  baud_rate : Z;
  led_pins : gmap pystr Z
}.

(** What the program does to the outside world. *)
Inductive Event :=
| Stdout (line : pystr)          (* print(line) *)
| SerialWrite (data : list byte) (* ser.write(data) returned *)
| SerialFault (data : list byte) (* ser.write(data) raised *)
| Sleep (seconds : Z).           (* time.sleep(seconds) *)

Record Controller := {
  config : Config;
  servo_control_enabled : bool;
  current_servo_pos : Z;
  trace : list Event;
  faults : nat -> option pystr;
  writes : nat;
  stdout : pystr -> option pystr
}.

Definition set_config (f : Config -> Config) (st : Controller) : Controller :=
  {| config := f (config st);
     servo_control_enabled := servo_control_enabled st;
     current_servo_pos := current_servo_pos st;
     trace := trace st; faults := faults st; writes := writes st;
     stdout := stdout st |}.

Definition set_servo_control_enabled (b : bool) (st : Controller) : Controller :=
  {| config := config st;
     servo_control_enabled := b;
     current_servo_pos := current_servo_pos st;
     trace := trace st; faults := faults st; writes := writes st;
     stdout := stdout st |}.

Definition set_current_servo_pos (p : Z) (st : Controller) : Controller :=
  {| config := config st;
     servo_control_enabled := servo_control_enabled st;
     current_servo_pos := p;
     trace := trace st; faults := faults st; writes := writes st;
     stdout := stdout st |}.

Definition log_event (e : Event) (st : Controller) : Controller :=
  {| config := config st;
     servo_control_enabled := servo_control_enabled st;
     current_servo_pos := current_servo_pos st;
     trace := trace st ++ [e]; faults := faults st; writes := writes st;
     stdout := stdout st |}.

Definition set_stdout (o : pystr -> option pystr) (st : Controller)
    : Controller :=
  {| config := config st;
     servo_control_enabled := servo_control_enabled st;
     current_servo_pos := current_servo_pos st;
     trace := trace st; faults := faults st; writes := writes st;
     stdout := o |}.

Definition count_write (st : Controller) : Controller :=
  {| config := config st;
     servo_control_enabled := servo_control_enabled st;
     current_servo_pos := current_servo_pos st;
     trace := trace st; faults := faults st; writes := S (writes st);
     stdout := stdout st |}.

(** The payloads handed to [ser.write], in order, whether the call
    returned or raised. *)
Fixpoint emitted (tr : list Event) : list (list byte) :=
  match tr with
  | [] => []
  | SerialWrite d :: tr' | SerialFault d :: tr' => d :: emitted tr'
  | _ :: tr' => emitted tr'
  end.

(** ** Computations *)

Inductive outcome (A : Type) :=
| Return (a : A)
| Raise (e : exn).
Arguments Return {A} a.
Arguments Raise {A} e.

Definition M (A : Type) : Type := Controller -> outcome A * Controller.

Definition ret {A} (a : A) : M A := fun st => (Return a, st).

Definition raise {A} (e : exn) : M A := fun st => (Raise e, st).

Definition bind {A B} (m : M A) (k : A -> M B) : M B :=
  fun st =>
    match m st with
    | (Return a, st') => k a st'
    | (Raise e, st') => (Raise e, st')
    end.

Declare Scope py_scope.
Delimit Scope py_scope with py.
Notation "x <- m ;; k" := (bind m (fun x => k))
  (at level 20, m at level 99, k at level 200, only parsing) : py_scope.
Notation "m ;; k" := (bind m (fun _ => k))
  (at level 100, k at level 200, right associativity, only parsing) : py_scope.
Local Open Scope py_scope.

(** [try: body / except <caught> as e: handler e] *)
Definition try_except {A} (body : M A) (caught : exn -> bool)
    (handler : exn -> M A) : M A :=
  fun st =>
    match body st with
    | (Raise e, st') => if caught e then handler e st' else (Raise e, st')
    | r => r
    end.

Definition lift {A} (r : exn + A) : M A :=
  match r with inl e => raise e | inr a => ret a end.

Definition get {A} (f : Controller -> A) : M A := fun st => (Return (f st), st).

Definition modify (f : Controller -> Controller) : M unit :=
  fun st => (Return tt, f st).

Definition print (line : pystr) : M unit := modify (log_event (Stdout line)).

(** [print(line)] for a line that holds characters read from the card:
    [sys.stdout] raises [UnicodeEncodeError], and writes nothing, when its
    encoding lacks one of them; [stdout st line] is then the message. *)
Definition print_encoded (line : pystr) : M unit :=
  fun st =>
    match stdout st line with
    | Some msg => (Raise (UnicodeEncodeError msg), st)
    | None => (Return tt, log_event (Stdout line) st)
    end.

Definition sleep (seconds : Z) : M unit := modify (log_event (Sleep seconds)).

(** [self.ser.write(data)]: the [writes st]-th call on the port raises
    when [faults st] says so. *)
Definition ser_write (data : list byte) : M unit :=
  fun st =>
    match faults st (writes st) with
    | Some msg =>
        (Raise (SerialException msg),
         count_write (log_event (SerialFault data) st))
    | None => (Return tt, count_write (log_event (SerialWrite data) st))
    end.

Fixpoint mapM {A B} (f : A -> M B) (l : list A) : M (list B) :=
  match l with
  | [] => ret []
  | a :: l' => b <- f a ;; bs <- mapM f l' ;; ret (b :: bs)
  end.

(** ** Configuration *)

(** The defaults of [__init__]. *)
Definition default_config : Config := {|
  vendor_id := 4660;
  product_id := 22136;
  authorized_cards := [lit "A1B2C3D4"; lit "E5F6G7H8"];
  servo_default_pos := 90;
  servo_allowed_pos := 180;
  baud_rate := 9600;
  led_pins := <[lit "green" := 3]> (<[lit "red" := 4]> ∅)
|}.

(** The object read from [config.json]: each key may be absent. *)
Record ConfigUpdate := {
  new_vendor_id : option Z;
  new_product_id : option Z;
  new_authorized_cards : option (list pystr);
  new_servo_default_pos : option Z;
  new_servo_allowed_pos : option Z;
  new_baud_rate : option Z;
  new_led_pins : option (gmap pystr Z)
}.

(** [c.update(n)]: the keys of [n] replace those of [c]. *)
Definition update (c : Config) (n : ConfigUpdate) : Config := {|
  vendor_id := default (vendor_id c) (new_vendor_id n);
  product_id := default (product_id c) (new_product_id n);
  authorized_cards := default (authorized_cards c) (new_authorized_cards n);
  servo_default_pos := default (servo_default_pos c) (new_servo_default_pos n);
  servo_allowed_pos := default (servo_allowed_pos c) (new_servo_allowed_pos n);
  baud_rate := default (baud_rate c) (new_baud_rate n);
  led_pins := default (led_pins c) (new_led_pins n)
|}.

(** What [open], [json.load] and [update] make of [config.json]: the two
    exceptions [load_config] catches, the keys that reach [self.config],
    or any other exception (a file that cannot be read or is not UTF-8, a
    JSON value [update] refuses). *)
Inductive ConfigFile :=
| FileNotFound
| JSONDecodeError
| Loaded (new_config : ConfigUpdate)
| Fails (e : exn).

Definition load_config (file : ConfigFile) : M unit :=
  match file with
  | Loaded new_config =>
      modify (set_config (fun c => update c new_config)) ;;
      print (lit "Configuration loaded successfully")
  | FileNotFound => print (lit "No config file found, using defaults")
  | JSONDecodeError => print (lit "Invalid config file, using defaults")
  | Fails e => raise e
  end.

(** The state [__init__] builds before it loads the configuration file;
    [f] is the behaviour of the serial port, and the console takes every
    line. *)
Definition init_state (f : nat -> option pystr) : Controller := {|
  config := default_config;
  servo_control_enabled := false;
  current_servo_pos := servo_default_pos default_config;
  trace := [];
  faults := f;
  writes := 0;
  stdout := fun _ => None
|}.

(** ** Commands *)

Definition send_command (command : json) : M unit :=
  try_except
    (let json_str := dumps command ++ [10%N] in
     data <- lift (encode json_str) ;;
     ser_write data)
    is_SerialException
    (fun e => print (lit "Error sending command: " ++ exn_str e)).

Definition control_led (color : pystr) (state : bool) : M unit :=
  pin <- get (fun st => led_pins (config st) !! color) ;;
  match pin with
  | Some _ => send_command (JDict [(lit "led", JDict [(color, JBool state)])])
  | None => ret tt
  end.

Definition enable_servo_control : M unit :=
  modify (set_servo_control_enabled true) ;;
  allowed <- get (fun st => servo_allowed_pos (config st)) ;;
  modify (set_current_servo_pos allowed) ;;
  send_command (JDict [(lit "servo", JDict [(lit "enable", JBool true)])]).

Definition disable_servo_control : M unit :=
  modify (set_servo_control_enabled false) ;;
  dflt <- get (fun st => servo_default_pos (config st)) ;;
  modify (set_current_servo_pos dflt) ;;
  send_command (JDict [(lit "servo", JDict [(lit "enable", JBool false)])]).

Definition set_servo_position (angle : Z) : M bool :=
  if (0 <=? angle) && (angle <=? 180) then
    modify (set_current_servo_pos angle) ;;
    send_command
      (JDict [(lit "servo", JDict [(lit "set_position", JInt angle)])]) ;;
    ret true
  else ret false.

(** ** Access control *)

Definition grant_access : M unit :=
  print (lit "Access granted") ;;
  control_led (lit "green") true ;;
  enable_servo_control ;;
  sleep 1 ;;
  control_led (lit "green") false.

Definition deny_access : M unit :=
  print (lit "Access denied") ;;
  control_led (lit "red") true ;;
  disable_servo_control ;;
  sleep 1 ;;
  control_led (lit "red") false.

(** [''.join([chr(byte) for byte in data])] *)
Definition decode (data : list byte) : M pystr :=
  mapM (fun b => lift (chr (Z.of_N (Byte.to_N b)))) data.

Definition handle_rfid_data (data : list byte) : M unit :=
  try_except
    (chars <- decode data ;;
     let card_id := strip chars in
     print_encoded (lit "Card read: " ++ card_id) ;;
     cards <- get (fun st => authorized_cards (config st)) ;;
     if bool_decide (card_id ∈ cards) then grant_access else deny_access)
    (fun _ => true)
    (fun e => print (lit "Error processing RFID data: " ++ exn_str e)).

(** ** Status reports and the console *)

(** One turn of the loop of [send_status_updates]. *)
Definition send_status_updates_body : M unit :=
  position <- get current_servo_pos ;;
  enabled <- get servo_control_enabled ;;
  cards <- get (fun st => authorized_cards (config st)) ;;
  send_command
    (JDict [(lit "status",
       JDict [(lit "servo",
                 JDict [(lit "position", JInt position);
                        (lit "enabled", JBool enabled)]);
              (lit "rfid",
                 JDict [(lit "cards_registered",
                           JInt (Z.of_nat (length cards)))])])]) ;;
  sleep 2.

Definition append_card (card : pystr) (c : Config) : Config := {|
  vendor_id := vendor_id c;
  product_id := product_id c;
  authorized_cards := authorized_cards c ++ [card];
  servo_default_pos := servo_default_pos c;
  servo_allowed_pos := servo_allowed_pos c;
  baud_rate := baud_rate c;
  led_pins := led_pins c
|}.

(** The branch [cmd == '4'] of [process_user_input]; [line] is what
    [input] returned. *)
Definition process_user_input_add_card (line : pystr) : M unit :=
  let card := strip line in
  cards <- get (fun st => authorized_cards (config st)) ;;
  if negb (bool_decide (card = [])) && negb (bool_decide (card ∈ cards)) then
    modify (set_config (append_card card)) ;;
    print (lit "Card " ++ card ++ lit " added")
  else print (lit "Invalid or duplicate card ID").

(** ** The commands of the protocol *)

Inductive Command :=
| SetLed (color : pystr) (state : bool)
| SetServoEnabled (enabled : bool)
| SetServoPosition (angle : Z)
| StatusSnapshot (position : Z) (enabled : bool) (cards_registered : Z).

(** The dictionary the source builds for each command. *)
Definition command_dict (c : Command) : json :=
  match c with
  | SetLed color state => JDict [(lit "led", JDict [(color, JBool state)])]
  | SetServoEnabled b =>
      JDict [(lit "servo", JDict [(lit "enable", JBool b)])]
  | SetServoPosition angle =>
      JDict [(lit "servo", JDict [(lit "set_position", JInt angle)])]
  | StatusSnapshot position enabled n =>
      JDict [(lit "status",
         JDict [(lit "servo",
                   JDict [(lit "position", JInt position);
                          (lit "enabled", JBool enabled)]);
                (lit "rfid", JDict [(lit "cards_registered", JInt n)])])]
  end.

(** The line [send_command] hands to the port for [command]. *)
Definition line (command : json) : list byte :=
  map to_byte (dumps command ++ [10%N]).

(** The state [send_command] leaves behind. *)
Definition after_send (command : json) (st : Controller) : Controller :=
  match faults st (writes st) with
  | Some msg =>
      log_event (Stdout (lit "Error sending command: " ++ msg))
        (count_write (log_event (SerialFault (line command)) st))
  | None => count_write (log_event (SerialWrite (line command)) st)
  end.

(** The state [control_led] leaves behind. *)
Definition after_led (color : pystr) (state : bool) (st : Controller)
    : Controller :=
  match led_pins (config st) !! color with
  | Some _ => after_send (command_dict (SetLed color state)) st
  | None => st
  end.

(** The state [grant_access] leaves behind. *)
Definition after_grant (st : Controller) : Controller :=
  after_led (lit "green") false
    (log_event (Sleep 1)
       (after_send (command_dict (SetServoEnabled true))
          (set_current_servo_pos (servo_allowed_pos (config st))
             (set_servo_control_enabled true
                (after_led (lit "green") true
                   (log_event (Stdout (lit "Access granted")) st)))))).

(** The state [deny_access] leaves behind. *)
Definition after_deny (st : Controller) : Controller :=
  after_led (lit "red") false
    (log_event (Sleep 1)
       (after_send (command_dict (SetServoEnabled false))
          (set_current_servo_pos (servo_default_pos (config st))
             (set_servo_control_enabled false
                (after_led (lit "red") true
                   (log_event (Stdout (lit "Access denied")) st)))))).

(** The characters read from the reader, and the identifier looked up. *)
Definition chars_of (data : list byte) : pystr :=
  map (fun b => Byte.to_N b) data.

Definition card_id_of (data : list byte) : pystr := strip (chars_of data).

(** What a call of [control_led] puts on the port. *)
Definition led_lines (c : Config) (color : pystr) (state : bool)
    : list (list byte) :=
  match led_pins c !! color with
  | Some _ => [line (command_dict (SetLed color state))]
  | None => []
  end.

Definition in_range (p : Z) : Prop := 0 <= p <= 180.

(** ** The loops *)

(** [turns] turns of the loop of [send_status_updates], [self.running]
    being set at each test. *)
Fixpoint send_status_updates (turns : nat) : M unit :=
  match turns with
  | O => ret tt
  | S n => send_status_updates_body ;; send_status_updates n
  end.


(** ** Start-up *)

(** A port listed by [comports()]: its device name, and what
    [serial.Serial(device, baud, timeout=1)] raises, if anything. *)
Record Port := {
  device : pystr;
  open_at : Z -> option exn
}.

Inductive startup_exn :=
| Propagated (e : exn)
| ConnectionError (msg : pystr).

(** The port [self.ser] is opened on and the line printed, or the
    exception that leaves the method. *)
Fixpoint init_serial_connection (c : Config) (ports : list Port)
    : startup_exn + Port * pystr :=
  match ports with
  | [] => inl (ConnectionError (lit "Could not connect to Arduino"))
  | port :: rest =>
      match open_at port (baud_rate c) with
      | None => inr (port, lit "Connected to Arduino on " ++ device port)
      | Some e =>
          if is_SerialException e then init_serial_connection c rest
          else inl (Propagated e)
      end
  end.

(** [__init__], up to the start of the status thread. [init_rfid_reader]
    only talks to the USB library: for a configuration it returns or
    raises. [port_faults] is the behaviour of each port once open. *)
Definition init_controller (init_rfid_reader : Config -> option exn)
    (ports : list Port) (file : ConfigFile)
    (port_faults : Port -> nat -> option pystr)
    : startup_exn + Port * Controller :=
  let c := default_config in
  match init_rfid_reader c with
  | Some e => inl (Propagated e)
  | None =>
      match init_serial_connection c ports with
      | inl e => inl e
      | inr (port, connected) =>
          let st := log_event (Stdout connected) (init_state (port_faults port)) in
          match load_config file st with
          | (Return _, st') => inr (port, st')
          | (Raise e, _) => inl (Propagated e)
          end
      end
  end.

(** ** What is observed *)

Definition servo_state (st : Controller) : bool * Z :=
  (servo_control_enabled st, current_servo_pos st).

(** The payloads the port accepted. *)
Fixpoint delivered (tr : list Event) : list (list byte) :=
  match tr with
  | [] => []
  | SerialWrite d :: tr' => d :: delivered tr'
  | _ :: tr' => delivered tr'
  end.

(** The lines printed. *)
Fixpoint printed (tr : list Event) : list pystr :=
  match tr with
  | [] => []
  | Stdout l :: tr' => l :: printed tr'
  | _ :: tr' => printed tr'
  end.

(** The pauses taken. *)
Fixpoint sleeps (tr : list Event) : list Z :=
  match tr with
  | [] => []
  | Sleep s :: tr' => s :: sleeps tr'
  | _ :: tr' => sleeps tr'
  end.

(** What one call of [send_command] adds to the trace when it makes the
    [n]-th write on a port behaving as [f]. *)
Definition send_events (f : nat -> option pystr) (n : nat) (j : json)
    : list Event :=
  match f n with
  | None => [SerialWrite (line j)]
  | Some msg =>
      [SerialFault (line j); Stdout (lit "Error sending command: " ++ msg)]
  end.

(** The same for one call of [control_led], and the writes it makes. *)
Definition led_events (c : Config) (f : nat -> option pystr) (n : nat)
    (color : pystr) (state : bool) : list Event :=
  match led_pins c !! color with
  | Some _ => send_events f n (command_dict (SetLed color state))
  | None => []
  end.

Definition led_writes (c : Config) (color : pystr) : nat :=
  match led_pins c !! color with Some _ => 1%nat | None => 0%nat end.

(** The state one turn of the status loop leaves behind. *)
Definition after_status (st : Controller) : Controller :=
  log_event (Sleep 2)
    (after_send
       (command_dict
          (StatusSnapshot (current_servo_pos st) (servo_control_enabled st)
             (Z.of_nat (length (authorized_cards (config st))))))
       st).

(** The console can encode the line that echoes the read. *)
Definition echoes (st : Controller) (data : list byte) : Prop :=
  stdout st (lit "Card read: " ++ card_id_of data) = None.

(** The decision on a read, and the colour that shows it. *)
Definition authorized (c : Config) (data : list byte) : bool :=
  bool_decide (card_id_of data ∈ authorized_cards c).

Definition decision_color (granted : bool) : pystr :=
  if granted then lit "green" else lit "red".

Definition decision_line (granted : bool) : pystr :=
  if granted then lit "Access granted" else lit "Access denied".

(** The commands a read sends. *)
Definition read_lines (c : Config) (data : list byte) : list (list byte) :=
  let granted := authorized c data in
  led_lines c (decision_color granted) true
  ++ [line (command_dict (SetServoEnabled granted))]
  ++ led_lines c (decision_color granted) false.

Definition space_byte (b : byte) : Prop := isspace (Byte.to_N b) = true.

(** Identifiers no read can produce: they start or end with white space,
    or hold a character that is not the value of a byte. *)
Definition never_read (card : pystr) : Prop :=
  (exists c t, card = c :: t /\ isspace c = true)
  \/ (exists t c, card = t ++ [c] /\ isspace c = true)
  \/ (exists c, c ∈ card /\ (256 <= c)%N).

(** ** Concrete inputs *)

Fixpoint bytes_of (s : string) : list byte :=
  match s with
  | EmptyString => []
  | String a s' => byte_of_ascii a :: bytes_of s'
  end.

(** A line of the protocol, written with apostrophes for the quotes. *)
Definition wire (s : string) : list byte :=
  map (fun b => match b with x27 => x22 | _ => b end) (bytes_of s) ++ [x0a].

(** [{"led_pins": {"red": 4}}] *)
Definition red_pin_only : ConfigUpdate := {|
  new_vendor_id := None; new_product_id := None;
  new_authorized_cards := None;
  new_servo_default_pos := None; new_servo_allowed_pos := None;
  new_baud_rate := None; new_led_pins := Some (<[lit "red" := 4]> ∅)
|}.

(** [{"led_pins": {"green": 3}}] *)
Definition green_pin_only : ConfigUpdate := {|
  new_vendor_id := None; new_product_id := None;
  new_authorized_cards := None;
  new_servo_default_pos := None; new_servo_allowed_pos := None;
  new_baud_rate := None; new_led_pins := Some (<[lit "green" := 3]> ∅)
|}.

(** [{"servo_allowed_pos": 270}] *)
Definition allowed_270 : ConfigUpdate := {|
  new_vendor_id := None; new_product_id := None;
  new_authorized_cards := None;
  new_servo_default_pos := None; new_servo_allowed_pos := Some 270;
  new_baud_rate := None; new_led_pins := None
|}.

(** [{"authorized_cards": [""]}] *)
Definition empty_card_listed : ConfigUpdate := {|
  new_vendor_id := None; new_product_id := None;
  new_authorized_cards := Some [[]];
  new_servo_default_pos := None; new_servo_allowed_pos := None;
  new_baud_rate := None; new_led_pins := None
|}.

(** [{"authorized_cards": ["é"]}], the card holding the one byte 0xE9. *)
Definition accented_card_listed : ConfigUpdate := {|
  new_vendor_id := None; new_product_id := None;
  new_authorized_cards := Some [[233%N]];
  new_servo_default_pos := None; new_servo_allowed_pos := None;
  new_baud_rate := None; new_led_pins := None
|}.

(** A console whose encoding is ASCII. The message is the one Python
    gives for the echo of the card 0xE9. *)
Definition ascii_stdout (line : pystr) : option pystr :=
  if forallb (fun c => (c <? 128)%N) line then None
  else Some (lit ("'ascii' codec can't encode character '\xe9' in "
                  ++ "position 11: ordinal not in range(128)")).

(** A port on which every write succeeds, and one on which none does. *)
Definition port_up : nat -> option pystr := fun _ => None.
Definition port_down : nat -> option pystr :=
  fun _ => Some (lit "write failed").

(** The controller after [__init__] found [file] as its [config.json]. *)
Definition started (file : ConfigFile) (f : nat -> option pystr)
    : Controller :=
  snd (load_config file (init_state f)).

(** * Properties *)

(** ** Encoding *)

Definition printable (c : N) : Prop := (32 <= c <= 126)%N.

Definition printableb (c : N) : bool := ((32 <=? c) && (c <=? 126))%N.

(** Boolean tests in the hypotheses, turned into (in)equalities. *)
Ltac tests :=
  repeat match goal with
    | H : (_ && _) = true |- _ => apply andb_prop in H as [? ?]
    | H : (_ <=? _)%N = true |- _ => apply N.leb_le in H
    | H : (_ <=? _)%N = false |- _ => apply N.leb_gt in H
    | H : (_ <? _)%N = true |- _ => apply N.ltb_lt in H
    | H : (_ <? _)%N = false |- _ => apply N.ltb_ge in H
    | H : (_ =? _)%N = true |- _ => apply N.eqb_eq in H
    | H : (_ =? _)%N = false |- _ => apply N.eqb_neq in H
    | H : (_ <=? _)%Z = true |- _ => apply Z.leb_le in H
    | H : (_ <=? _)%Z = false |- _ => apply Z.leb_gt in H
    | H : (_ <? _)%Z = true |- _ => apply Z.ltb_lt in H
    | H : (_ <? _)%Z = false |- _ => apply Z.ltb_ge in H
    end.

Lemma printableb_spec (s : pystr) :
  forallb printableb s = true -> Forall printable s.
Proof.
  induction s as [|c s IH]; simpl; intros H; constructor.
  - unfold printableb in H. tests. unfold printable. lia.
  - apply IH. by apply andb_prop in H as [_ H].
Qed.

Ltac printable_lit := apply printableb_spec; vm_compute; reflexivity.

Lemma to_N_to_byte (n : N) : Byte.to_N (to_byte n) = (n mod 256)%N.
Proof.
  unfold to_byte. destruct (Byte.of_N (n mod 256)) as [b|] eqn:E.
  - by apply Byte.to_of_N in E.
  - apply Byte.of_N_None_iff in E.
    pose proof (N.mod_lt n 256). lia.
Qed.

Lemma encode_app (s1 s2 : pystr) (b1 b2 : list byte) :
  encode s1 = inr b1 -> encode s2 = inr b2 ->
  encode (s1 ++ s2) = inr (b1 ++ b2).
Proof.
  revert b1. induction s1 as [|c s1 IH]; simpl; intros b1 H1 H2.
  - by inversion H1.
  - destruct (utf8_char c) as [e|bs]; [done|].
    destruct (encode s1) as [e|rest]; [done|].
    inversion H1; subst. rewrite (IH rest eq_refl H2).
    by rewrite app_assoc.
Qed.

Lemma encode_printable (s : pystr) :
  Forall printable s -> encode s = inr (map to_byte s).
Proof.
  induction 1 as [|c s Hc _ IH]; [done|]. simpl.
  unfold utf8_char. unfold printable in Hc.
  destruct (N.ltb_spec c 128); [|lia]. by rewrite IH.
Qed.

Lemma hex_digit_printable (d : N) : (d < 16)%N -> printable (hex_digit d).
Proof.
  unfold hex_digit, printable. intros H. destruct (N.ltb_spec d 10); lia.
Qed.

Lemma u_escape_printable (n : N) : Forall printable (u_escape n).
Proof.
  unfold u_escape. apply Forall_app. split; [printable_lit|].
  repeat constructor; apply hex_digit_printable; by apply N.mod_lt.
Qed.

Lemma escape_char_printable (c : N) : Forall printable (escape_char c).
Proof.
  unfold escape_char.
  repeat (case_match; [printable_lit|]).
  case_match.
  - constructor; [|constructor]. tests. unfold printable. lia.
  - case_match; [apply u_escape_printable|].
    apply Forall_app; split; apply u_escape_printable.
Qed.

Lemma encode_basestring_ascii_printable (s : pystr) :
  Forall printable (encode_basestring_ascii s).
Proof.
  unfold encode_basestring_ascii.
  apply Forall_app; split; [printable_lit|].
  apply Forall_app; split; [|printable_lit].
  induction s as [|c s IH]; simpl; [constructor|].
  apply Forall_app; split; [apply escape_char_printable|exact IH].
Qed.

Lemma uint_digits_printable (u : Decimal.uint) :
  Forall printable (uint_digits u).
Proof.
  induction u; simpl; constructor; try assumption; unfold printable; lia.
Qed.

Lemma repr_int_printable (z : Z) : Forall printable (repr_int z).
Proof.
  unfold repr_int. case_match.
  - apply Forall_app; split; [printable_lit|apply uint_digits_printable].
  - apply uint_digits_printable.
Qed.

Fixpoint json_induction (P : json -> Prop)
    (Hbool : forall b, P (JBool b)) (Hint : forall z, P (JInt z))
    (Hdict : forall items, Forall (fun kv => P (snd kv)) items ->
                           P (JDict items))
    (j : json) : P j :=
  match j with
  | JBool b => Hbool b
  | JInt z => Hint z
  | JDict items =>
      Hdict items
        ((fix all (l : list (pystr * json))
            : Forall (fun kv => P (snd kv)) l :=
            match l with
            | [] => List.Forall_nil _
            | (k, v) :: l' =>
                List.Forall_cons _ (k, v) l'
                  (json_induction P Hbool Hint Hdict v) (all l')
            end) items)
  end.

Lemma dumps_printable (j : json) : Forall printable (dumps j).
Proof.
  induction j as [b|z|items IH] using json_induction.
  - destruct b; printable_lit.
  - apply repr_int_printable.
  - cbn [dumps]. apply Forall_app; split; [printable_lit|].
    apply Forall_app; split; [|printable_lit].
    induction IH as [|[k v] rest Hv _ IHrest]; [constructor|].
    apply Forall_app; split; [apply encode_basestring_ascii_printable|].
    apply Forall_app; split; [printable_lit|].
    apply Forall_app; split; [exact Hv|].
    destruct rest; [constructor|].
    apply Forall_app; split; [printable_lit|exact IHrest].
Qed.

(** [str.encode] never fails on what [send_command] builds. *)
Lemma encode_line (j : json) : encode (dumps j ++ [10%N]) = inr (line j).
Proof.
  unfold line. rewrite map_app.
  apply encode_app; [apply encode_printable, dumps_printable|reflexivity].
Qed.

Lemma line_newline (j : json) :
  line j = map to_byte (dumps j) ++ [x0a] /\ x0a ∉ map to_byte (dumps j).
Proof.
  split; [unfold line; by rewrite map_app|].
  intros Hin. apply list_elem_of_fmap in Hin as (c & Hc & Hin).
  pose proof (dumps_printable j) as Hp.
  rewrite Forall_forall in Hp. specialize (Hp c Hin). unfold printable in Hp.
  pose proof (to_N_to_byte c) as Hn. rewrite <- Hc in Hn. simpl in Hn.
  rewrite N.mod_small in Hn by lia. lia.
Qed.

(** ** How the methods run *)

Lemma emitted_app (tr1 tr2 : list Event) :
  emitted (tr1 ++ tr2) = emitted tr1 ++ emitted tr2.
Proof.
  induction tr1 as [|[] tr1 IH]; simpl; by rewrite ?IH.
Qed.

Lemma send_command_run (j : json) (st : Controller) :
  send_command j st = (Return tt, after_send j st).
Proof.
  unfold send_command, try_except, bind, lift. rewrite encode_line.
  unfold ret, ser_write, after_send.
  by destruct (faults st (writes st)).
Qed.

Section after_send.
Variables (j : json) (st : Controller).

Lemma after_send_config : config (after_send j st) = config st.
Proof. unfold after_send. by destruct (faults st (writes st)). Qed.

Lemma after_send_enabled :
  servo_control_enabled (after_send j st) = servo_control_enabled st.
Proof. unfold after_send. by destruct (faults st (writes st)). Qed.

Lemma after_send_pos :
  current_servo_pos (after_send j st) = current_servo_pos st.
Proof. unfold after_send. by destruct (faults st (writes st)). Qed.

Lemma after_send_faults : faults (after_send j st) = faults st.
Proof. unfold after_send. by destruct (faults st (writes st)). Qed.

Lemma after_send_writes : writes (after_send j st) = S (writes st).
Proof. unfold after_send. by destruct (faults st (writes st)). Qed.

Lemma after_send_emitted :
  emitted (trace (after_send j st)) = emitted (trace st) ++ [line j].
Proof.
  unfold after_send.
  destruct (faults st (writes st)); simpl; rewrite ?emitted_app; simpl;
    by rewrite ?app_nil_r.
Qed.

Lemma after_send_trace :
  exists rest, trace (after_send j st) = trace st ++ rest.
Proof.
  unfold after_send. destruct (faults st (writes st)); simpl.
  - eexists. by rewrite <- app_assoc.
  - by eexists.
Qed.
End after_send.

Lemma control_led_run (color : pystr) (state : bool) (st : Controller) :
  control_led color state st = (Return tt, after_led color state st).
Proof.
  unfold control_led, after_led, bind, get.
  destruct (led_pins (config st) !! color); [apply send_command_run|done].
Qed.

Section after_led.
Variables (color : pystr) (state : bool) (st : Controller).

Lemma after_led_config : config (after_led color state st) = config st.
Proof.
  unfold after_led. case_match; [apply after_send_config|done].
Qed.

Lemma after_led_enabled :
  servo_control_enabled (after_led color state st)
  = servo_control_enabled st.
Proof.
  unfold after_led. case_match; [apply after_send_enabled|done].
Qed.

Lemma after_led_pos :
  current_servo_pos (after_led color state st) = current_servo_pos st.
Proof. unfold after_led. case_match; [apply after_send_pos|done]. Qed.

Lemma after_led_faults : faults (after_led color state st) = faults st.
Proof. unfold after_led. case_match; [apply after_send_faults|done]. Qed.

Lemma after_led_trace :
  exists rest, trace (after_led color state st) = trace st ++ rest.
Proof.
  unfold after_led. case_match; [apply after_send_trace|].
  exists []. by rewrite app_nil_r.
Qed.

Lemma after_led_emitted :
  emitted (trace (after_led color state st))
  = emitted (trace st) ++ led_lines (config st) color state.
Proof.
  unfold after_led, led_lines.
  case_match; [apply after_send_emitted|by rewrite app_nil_r].
Qed.
End after_led.

Create Rewrite HintDb ctl.
#[local] Hint Rewrite after_send_config after_send_enabled after_send_pos
  after_send_faults after_send_emitted after_led_config after_led_enabled
  after_led_pos after_led_faults after_led_emitted emitted_app : ctl.

Ltac ctl := repeat (autorewrite with ctl; cbn -[lit line led_lines]).

Lemma enable_servo_control_run (st : Controller) :
  enable_servo_control st
  = (Return tt,
     after_send (command_dict (SetServoEnabled true))
       (set_current_servo_pos (servo_allowed_pos (config st))
          (set_servo_control_enabled true st))).
Proof.
  unfold enable_servo_control, bind, modify, get. apply send_command_run.
Qed.

Lemma disable_servo_control_run (st : Controller) :
  disable_servo_control st
  = (Return tt,
     after_send (command_dict (SetServoEnabled false))
       (set_current_servo_pos (servo_default_pos (config st))
          (set_servo_control_enabled false st))).
Proof.
  unfold disable_servo_control, bind, modify, get. apply send_command_run.
Qed.

Lemma grant_access_run (st : Controller) :
  grant_access st = (Return tt, after_grant st).
Proof.
  unfold grant_access, after_grant, bind, print, sleep, modify.
  rewrite control_led_run, enable_servo_control_run, control_led_run.
  by rewrite after_led_config.
Qed.

Lemma deny_access_run (st : Controller) :
  deny_access st = (Return tt, after_deny st).
Proof.
  unfold deny_access, after_deny, bind, print, sleep, modify.
  rewrite control_led_run, disable_servo_control_run, control_led_run.
  by rewrite after_led_config.
Qed.

(** [chr] accepts every byte. *)
Lemma chr_byte (b : byte) : chr (Z.of_N (Byte.to_N b)) = inr (Byte.to_N b).
Proof.
  unfold chr. pose proof (Byte.to_N_bounded b).
  destruct (Z.leb_spec 0 (Z.of_N (Byte.to_N b))); [|lia].
  destruct (Z.ltb_spec (Z.of_N (Byte.to_N b)) 1114112); [|lia].
  cbn [andb]. by rewrite N2Z.id.
Qed.

Lemma decode_run (data : list byte) (st : Controller) :
  decode data st = (Return (chars_of data), st).
Proof.
  unfold decode, chars_of. induction data as [|b data IH]; [done|].
  cbn [mapM map]. unfold bind.
  rewrite chr_byte. change (lift (inr ?a) st) with (Return a, st).
  cbv iota beta. by rewrite IH.
Qed.

Lemma handle_rfid_data_run (data : list byte) (st : Controller) :
  handle_rfid_data data st
  = (Return tt,
     match stdout st (lit "Card read: " ++ card_id_of data) with
     | Some msg =>
         log_event (Stdout (lit "Error processing RFID data: " ++ msg)) st
     | None =>
         let st1 :=
           log_event (Stdout (lit "Card read: " ++ card_id_of data)) st in
         if bool_decide (card_id_of data ∈ authorized_cards (config st))
         then after_grant st1 else after_deny st1
     end).
Proof.
  unfold handle_rfid_data, try_except, bind at 1. rewrite decode_run.
  fold (card_id_of data). unfold bind at 1, print_encoded.
  destruct (stdout st (lit "Card read: " ++ card_id_of data)) as [msg|];
    [reflexivity|].
  unfold bind, get. cbn [config log_event]. case_bool_decide.
  - by rewrite grant_access_run.
  - by rewrite deny_access_run.
Qed.

(** A read the console can echo reaches the decision. *)
Lemma handle_rfid_data_accepted (data : list byte) (st : Controller) :
  stdout st (lit "Card read: " ++ card_id_of data) = None ->
  handle_rfid_data data st
  = (Return tt,
     let st1 := log_event (Stdout (lit "Card read: " ++ card_id_of data)) st in
     if bool_decide (card_id_of data ∈ authorized_cards (config st))
     then after_grant st1 else after_deny st1).
Proof. intros Hecho. by rewrite handle_rfid_data_run, Hecho. Qed.

(** A read the console cannot echo is reported and changes nothing
    else. *)
Lemma handle_rfid_data_refused (data : list byte) (st : Controller)
    (msg : pystr) :
  stdout st (lit "Card read: " ++ card_id_of data) = Some msg ->
  handle_rfid_data data st
  = (Return tt,
     log_event (Stdout (lit "Error processing RFID data: " ++ msg)) st).
Proof. intros Hecho. by rewrite handle_rfid_data_run, Hecho. Qed.

Lemma after_grant_trace (st : Controller) :
  exists rest,
    trace (after_grant st) = trace st ++ Stdout (lit "Access granted") :: rest.
Proof.
  unfold after_grant.
  destruct (after_led_trace (lit "green") true
              (log_event (Stdout (lit "Access granted")) st)) as [r1 H1].
  set (s1 := after_led _ true _) in *.
  destruct (after_send_trace (command_dict (SetServoEnabled true))
              (set_current_servo_pos (servo_allowed_pos (config st))
                 (set_servo_control_enabled true s1))) as [r2 H2].
  set (s2 := after_send _ _) in *.
  destruct (after_led_trace (lit "green") false (log_event (Sleep 1) s2))
    as [r3 H3].
  exists (r1 ++ r2 ++ Sleep 1 :: r3).
  rewrite H3. cbn [trace log_event]. rewrite H2. cbn [trace
    set_current_servo_pos set_servo_control_enabled]. rewrite H1.
  cbn [trace log_event]. by rewrite <- !app_assoc.
Qed.

Lemma after_deny_trace (st : Controller) :
  exists rest,
    trace (after_deny st) = trace st ++ Stdout (lit "Access denied") :: rest.
Proof.
  unfold after_deny.
  destruct (after_led_trace (lit "red") true
              (log_event (Stdout (lit "Access denied")) st)) as [r1 H1].
  set (s1 := after_led _ true _) in *.
  destruct (after_send_trace (command_dict (SetServoEnabled false))
              (set_current_servo_pos (servo_default_pos (config st))
                 (set_servo_control_enabled false s1))) as [r2 H2].
  set (s2 := after_send _ _) in *.
  destruct (after_led_trace (lit "red") false (log_event (Sleep 1) s2))
    as [r3 H3].
  exists (r1 ++ r2 ++ Sleep 1 :: r3).
  rewrite H3. cbn [trace log_event]. rewrite H2. cbn [trace
    set_current_servo_pos set_servo_control_enabled]. rewrite H1.
  cbn [trace log_event]. by rewrite <- !app_assoc.
Qed.

(** Granting and denying are told apart by what they print. *)
Lemma grant_is_not_deny (st : Controller) : after_grant st <> after_deny st.
Proof.
  intros Heq.
  destruct (after_grant_trace st) as [r1 H1].
  destruct (after_deny_trace st) as [r2 H2].
  rewrite Heq, H2 in H1. apply app_inv_head in H1. discriminate H1.
Qed.

(** ** Granting and denying *)

(** Decidable facts about concrete inputs, by running the decision. *)
Ltac by_evaluation := apply (bool_decide_unpack _); vm_compute; exact I.

(** C1, as the code has it. For every read whose identifier is in the
    list of authorized cards and whose echo the console can encode,
    [handle_rfid_data] returns normally, enables the servo and moves the
    recorded position to [servo_allowed_pos], whatever the port does with
    the writes. It hands the enable command to the port; when green has a
    pin in [led_pins] the command is preceded by green-on and followed by
    green-off, and when green has no pin it is the only command. *)
Theorem grant_transition (data : list byte) (st : Controller) :
  card_id_of data ∈ authorized_cards (config st) ->
  stdout st (lit "Card read: " ++ card_id_of data) = None ->
  let st' := snd (handle_rfid_data data st) in
  let on := line (command_dict (SetLed (lit "green") true)) in
  let enable := line (command_dict (SetServoEnabled true)) in
  let off := line (command_dict (SetLed (lit "green") false)) in
  fst (handle_rfid_data data st) = Return tt
  /\ (is_Some (led_pins (config st) !! lit "green") ->
      emitted (trace st') = emitted (trace st) ++ [on; enable; off])
  /\ (led_pins (config st) !! lit "green" = None ->
      emitted (trace st') = emitted (trace st) ++ [enable])
  /\ servo_control_enabled st' = true
  /\ current_servo_pos st' = servo_allowed_pos (config st).
Proof.
  intros Hin Hecho. rewrite (handle_rfid_data_accepted _ _ Hecho).
  cbn [fst snd]. rewrite bool_decide_eq_true_2 by exact Hin.
  unfold after_grant. repeat split.
  - intros [pin Hpin]. ctl. unfold led_lines. ctl. rewrite Hpin.
    by rewrite app_nil_r, <- !app_assoc.
  - intros Hpin. ctl. unfold led_lines. ctl. rewrite Hpin.
    by rewrite !app_nil_r.
  - by ctl.
  - by ctl.
Qed.

Lemma grant_transition_witness :
  let st := set_stdout ascii_stdout (started FileNotFound port_down) in
  let data := bytes_of " A1B2C3D4 " in
  card_id_of data ∈ authorized_cards (config st)
  /\ stdout st (lit "Card read: " ++ card_id_of data) = None
  /\ servo_control_enabled (snd (handle_rfid_data data st)) = true
  /\ current_servo_pos (snd (handle_rfid_data data st)) = 180.
Proof.
  intros st data.
  assert (Hin : card_id_of data ∈ authorized_cards (config st))
    by (by_evaluation).
  assert (Hecho : stdout st (lit "Card read: " ++ card_id_of data) = None)
    by reflexivity.
  split; [exact Hin|]. split; [exact Hecho|].
  destruct (grant_transition data st Hin Hecho) as (_ & _ & _ & He & Hp).
  split; [exact He | exact Hp].
Defined.

(** C1 as stated fails when green has no pin: the read is authorized and
    only the enable command reaches the port. *)
Lemma grant_without_green_pin :
  let st := started (Loaded red_pin_only) port_up in
  let data := bytes_of "A1B2C3D4" in
  let st' := snd (handle_rfid_data data st) in
  card_id_of data ∈ authorized_cards (config st)
  /\ emitted (trace st') = [line (command_dict (SetServoEnabled true))]
  /\ emitted (trace st')
     <> emitted (trace st)
        ++ [line (command_dict (SetLed (lit "green") true));
            line (command_dict (SetServoEnabled true));
            line (command_dict (SetLed (lit "green") false))].
Proof.
  intros st data st'. split; [|split].
  - by_evaluation.
  - vm_compute. reflexivity.
  - vm_compute. discriminate.
Qed.

(** The two scenarios of the default configuration, on a port that
    refuses every write. *)
Example default_scenarios :
  let st := started FileNotFound port_down in
  let granted := snd (handle_rfid_data (bytes_of "A1B2C3D4") st) in
  let denied := snd (handle_rfid_data (bytes_of "ZZZZ9999") st) in
  emitted (trace granted)
  = [wire "{'led': {'green': true}}"; wire "{'servo': {'enable': true}}";
     wire "{'led': {'green': false}}"]
  /\ (servo_control_enabled granted, current_servo_pos granted) = (true, 180)
  /\ emitted (trace denied)
     = [wire "{'led': {'red': true}}"; wire "{'servo': {'enable': false}}";
        wire "{'led': {'red': false}}"]
  /\ (servo_control_enabled denied, current_servo_pos denied) = (false, 90).
Proof. cbv zeta. repeat split; vm_compute; reflexivity. Qed.

(** C2, as the code has it. For every read whose identifier is not in
    the list of authorized cards and whose echo the console can encode,
    [handle_rfid_data] returns normally,
    disables the servo and moves the recorded position to
    [servo_default_pos], whatever the port does with the writes. It hands
    the disable command to the port; when red has a pin in [led_pins] the
    command is preceded by red-on and followed by red-off, and when red
    has no pin it is the only command. *)
Theorem deny_transition (data : list byte) (st : Controller) :
  (card_id_of data ∉ authorized_cards (config st)) ->
  stdout st (lit "Card read: " ++ card_id_of data) = None ->
  let st' := snd (handle_rfid_data data st) in
  let on := line (command_dict (SetLed (lit "red") true)) in
  let disable := line (command_dict (SetServoEnabled false)) in
  let off := line (command_dict (SetLed (lit "red") false)) in
  fst (handle_rfid_data data st) = Return tt
  /\ (is_Some (led_pins (config st) !! lit "red") ->
      emitted (trace st') = emitted (trace st) ++ [on; disable; off])
  /\ (led_pins (config st) !! lit "red" = None ->
      emitted (trace st') = emitted (trace st) ++ [disable])
  /\ servo_control_enabled st' = false
  /\ current_servo_pos st' = servo_default_pos (config st).
Proof.
  intros Hin Hecho. rewrite (handle_rfid_data_accepted _ _ Hecho).
  cbn [fst snd]. rewrite bool_decide_eq_false_2 by exact Hin.
  unfold after_deny. repeat split.
  - intros [pin Hpin]. ctl. unfold led_lines. ctl. rewrite Hpin.
    by rewrite app_nil_r, <- !app_assoc.
  - intros Hpin. ctl. unfold led_lines. ctl. rewrite Hpin.
    by rewrite !app_nil_r.
  - by ctl.
  - by ctl.
Qed.

Lemma deny_transition_witness :
  let st := set_stdout ascii_stdout (started FileNotFound port_down) in
  let data := bytes_of "ZZZZ9999" in
  (card_id_of data ∉ authorized_cards (config st))
  /\ stdout st (lit "Card read: " ++ card_id_of data) = None
  /\ servo_control_enabled (snd (handle_rfid_data data st)) = false
  /\ current_servo_pos (snd (handle_rfid_data data st)) = 90.
Proof.
  intros st data.
  assert (Hin : card_id_of data ∉ authorized_cards (config st))
    by (by_evaluation).
  assert (Hecho : stdout st (lit "Card read: " ++ card_id_of data) = None)
    by reflexivity.
  split; [exact Hin|]. split; [exact Hecho|].
  destruct (deny_transition data st Hin Hecho) as (_ & _ & _ & He & Hp).
  split; [exact He | exact Hp].
Defined.

(** C2 as stated fails when red has no pin: the read is not authorized
    and only the disable command reaches the port. *)
Lemma deny_without_red_pin :
  let st := started (Loaded green_pin_only) port_up in
  let data := bytes_of "ZZZZ9999" in
  let st' := snd (handle_rfid_data data st) in
  (card_id_of data ∉ authorized_cards (config st))
  /\ emitted (trace st') = [line (command_dict (SetServoEnabled false))]
  /\ emitted (trace st')
     <> emitted (trace st)
        ++ [line (command_dict (SetLed (lit "red") true));
            line (command_dict (SetServoEnabled false));
            line (command_dict (SetLed (lit "red") false))].
Proof.
  intros st data st'. split; [|split].
  - by_evaluation.
  - vm_compute. reflexivity.
  - vm_compute. discriminate.
Qed.

(** ** The authorization check *)

Lemma lstrip_spaces (l s : pystr) :
  Forall (fun c => isspace c = true) l -> lstrip (l ++ s) = lstrip s.
Proof.
  induction 1 as [|c l Hc _ IH]; [done|]. simpl. by rewrite Hc.
Qed.

Lemma lstrip_keeps (c : N) (s : pystr) :
  isspace c = false -> lstrip (c :: s) = c :: s.
Proof. intros H. simpl. by rewrite H. Qed.

(** [strip] removes the white space around an identifier that neither
    starts nor ends with white space, and nothing else. *)
Lemma strip_padded (l r : pystr) (a b : N) (mid : pystr) :
  Forall (fun c => isspace c = true) l ->
  Forall (fun c => isspace c = true) r ->
  isspace a = false -> isspace b = false ->
  strip (l ++ (a :: mid ++ [b]) ++ r) = a :: mid ++ [b]
  /\ strip (l ++ [a] ++ r) = [a].
Proof.
  intros Hl Hr Ha Hb. unfold strip, rstrip. split.
  - rewrite lstrip_spaces by exact Hl.
    rewrite <- app_comm_cons, lstrip_keeps by exact Ha.
    rewrite app_comm_cons, rev_app_distr.
    rewrite lstrip_spaces by (by apply Forall_rev).
    rewrite app_comm_cons, rev_app_distr.
    change (rev [b] ++ ?x) with (b :: x).
    rewrite lstrip_keeps by exact Hb.
    change (rev (b :: ?x)) with (rev x ++ [b]).
    by rewrite rev_involutive.
  - rewrite lstrip_spaces by exact Hl. cbn [app].
    rewrite lstrip_keeps by exact Ha.
    change (a :: r) with ([a] ++ r). rewrite rev_app_distr.
    rewrite lstrip_spaces by (by apply Forall_rev).
    cbn [rev app]. by rewrite lstrip_keeps by exact Ha.
Qed.

Lemma strip_spaces (s : pystr) :
  Forall (fun c => isspace c = true) s -> strip s = [].
Proof.
  intros H. unfold strip, rstrip.
  rewrite <- (app_nil_r s), lstrip_spaces by exact H. done.
Qed.

(** C3, as the code has it. For every read whose echo the console can
    encode, the read is granted exactly when the characters read,
    stripped, are an element of [authorized_cards], and denied exactly
    when they are not; elements are compared by equality of their code
    points, so neither case nor anything else is normalized. *)
Theorem authorization_iff_member (data : list byte) (st : Controller) :
  stdout st (lit "Card read: " ++ strip (chars_of data)) = None ->
  let card_id := strip (chars_of data) in
  let st1 := log_event (Stdout (lit "Card read: " ++ card_id)) st in
  (card_id ∈ authorized_cards (config st)
   <-> handle_rfid_data data st = grant_access st1)
  /\ (card_id ∉ authorized_cards (config st)
      <-> handle_rfid_data data st = deny_access st1).
Proof.
  intros Hecho card_id st1.
  rewrite (handle_rfid_data_accepted _ _ Hecho).
  rewrite grant_access_run, deny_access_run.
  fold card_id. cbv zeta. fold st1.
  case_bool_decide as Hin; (split; split); try done.
  - intros Heq. exfalso.
    apply (grant_is_not_deny st1). by inversion Heq.
  - intros Heq. exfalso.
    apply (grant_is_not_deny st1). by inversion Heq.
Qed.

Lemma authorization_iff_member_witness :
  let st := set_stdout ascii_stdout (started FileNotFound port_up) in
  let data := bytes_of "E5F6G7H8" in
  let st1 := log_event (Stdout (lit "Card read: E5F6G7H8")) st in
  stdout st (lit "Card read: " ++ strip (chars_of data)) = None
  /\ handle_rfid_data data st = grant_access st1.
Proof.
  intros st data st1.
  assert (Hecho : stdout st (lit "Card read: " ++ strip (chars_of data))
                  = None) by reflexivity.
  split; [exact Hecho|].
  apply (authorization_iff_member data st Hecho). by_evaluation.
Defined.

(** C3 as stated fails on a console whose encoding is ASCII: the card
    0xE9 is listed, the read of it is an element of the list, and it is
    not granted; the echo raises, the read is reported as an error and
    sends nothing. *)
Lemma listed_card_not_granted :
  let st :=
    set_stdout ascii_stdout (started (Loaded accented_card_listed) port_up) in
  let data := [xe9] in
  let st' := snd (handle_rfid_data data st) in
  strip (chars_of data) ∈ authorized_cards (config st)
  /\ handle_rfid_data data st
     <> grant_access
          (log_event (Stdout (lit "Card read: " ++ strip (chars_of data))) st)
  /\ servo_control_enabled st' = false
  /\ emitted (trace st') = []
  /\ printed (trace st')
     = [lit "Configuration loaded successfully";
        lit ("Error processing RFID data: 'ascii' codec can't encode "
             ++ "character '\xe9' in position 11: ordinal not in "
             ++ "range(128)")].
Proof.
  intros st data st'. split; [by_evaluation|]. split.
  - intros Heq.
    apply (f_equal (fun r => length (trace (snd r)))) in Heq.
    vm_compute in Heq. discriminate Heq.
  - repeat split; vm_compute; reflexivity.
Qed.

(** The default list holds [A1B2C3D4]; the same letters in lower case, or
    with a space inside, are other identifiers. *)
Example lower_case_is_another_card :
  strip (chars_of (bytes_of "A1B2C3D4 ")) ∈ authorized_cards default_config
  /\ (strip (chars_of (bytes_of "a1b2c3d4")) ∉ authorized_cards default_config)
  /\ (strip (chars_of (bytes_of "A1B2 C3D4"))
        ∉ authorized_cards default_config).
Proof. repeat split; by_evaluation. Qed.

(** A read that is empty once stripped is denied when the empty
    identifier is not listed and the console takes the echo. *)
Lemma empty_read_denied (data : list byte) (st : Controller) :
  card_id_of data = [] ->
  ([] ∉ authorized_cards (config st)) ->
  stdout st (lit "Card read: ") = None ->
  handle_rfid_data data st
  = deny_access (log_event (Stdout (lit "Card read: ")) st).
Proof.
  intros Hempty Hnot Hecho.
  rewrite handle_rfid_data_accepted by (by rewrite Hempty, app_nil_r).
  rewrite deny_access_run, Hempty.
  rewrite bool_decide_eq_false_2 by exact Hnot.
  by rewrite app_nil_r.
Qed.

(** C9 fails on the code. Decoding turns every sequence of bytes into a
    string without raising, but [load_config] takes the list of cards
    from the file as it is: with the empty identifier in the file, which
    the console's add-card command refuses, a read of white space decodes
    to the empty string, passes the lookup and is granted. *)
Theorem empty_read_granted :
  (forall data st, decode data st = (Return (chars_of data), st))
  /\ let st := started (Loaded empty_card_listed) port_up in
     let data := [x20; x0d; x0a] in
     card_id_of data = []
     /\ handle_rfid_data data st
        = grant_access (log_event (Stdout (lit "Card read: ")) st)
     /\ servo_state (snd (handle_rfid_data data st)) = (true, 180)
     /\ snd (process_user_input_add_card (lit "  ") st)
        = log_event (Stdout (lit "Invalid or duplicate card ID")) st.
Proof.
  split; [apply decode_run|]. cbv zeta.
  split; [reflexivity|]. split; [|split].
  - rewrite handle_rfid_data_accepted by reflexivity.
    rewrite grant_access_run.
    rewrite bool_decide_eq_true_2 by by_evaluation. reflexivity.
  - vm_compute. reflexivity.
  - vm_compute. reflexivity.
Qed.

(** Decoding and the whole of [handle_rfid_data] return normally on every
    input. *)
Lemma handle_rfid_data_returns (data : list byte) (st : Controller) :
  fst (decode data st) = Return (chars_of data)
  /\ fst (handle_rfid_data data st) = Return tt.
Proof. by rewrite decode_run, handle_rfid_data_run. Qed.

(** ** The servo position *)

Lemma set_servo_position_run (angle : Z) (st : Controller) :
  set_servo_position angle st
  = if (0 <=? angle) && (angle <=? 180) then
      (Return true,
       after_send (command_dict (SetServoPosition angle))
         (set_current_servo_pos angle st))
    else (Return false, st).
Proof.
  unfold set_servo_position. case_match; [|done].
  unfold bind, modify. by rewrite send_command_run.
Qed.

(** C4. [set_servo_position] returns [True] exactly for the angles from 0
    to 180; it then records the angle and hands the set-position command
    to the port. For any other angle it returns [False] and leaves the
    whole state as it was. In both cases the enabled flag is unchanged. *)
Theorem set_servo_position_spec (angle : Z) (st : Controller) :
  let r := set_servo_position angle st in
  (fst r = Return true <-> 0 <= angle <= 180)
  /\ (0 <= angle <= 180 ->
      current_servo_pos (snd r) = angle
      /\ emitted (trace (snd r))
         = emitted (trace st)
           ++ [line (command_dict (SetServoPosition angle))])
  /\ (~ 0 <= angle <= 180 -> r = (Return false, st))
  /\ servo_control_enabled (snd r) = servo_control_enabled st.
Proof.
  rewrite set_servo_position_run.
  destruct ((0 <=? angle) && (angle <=? 180)) eqn:Htest.
  - tests. cbv zeta. cbn [fst snd]. repeat split; try done; try lia.
    all: by ctl.
  - assert (~ 0 <= angle <= 180) as Hout.
    { apply andb_false_iff in Htest as [H|H]; tests; lia. }
    cbv zeta. cbn [fst snd ret]. repeat split; done.
Qed.

(** The angles next to the range are refused. *)
Example set_servo_position_refused (st : Controller) :
  set_servo_position (-1) st = (Return false, st)
  /\ set_servo_position 181 st = (Return false, st).
Proof. split; reflexivity. Qed.

Lemma set_servo_position_in_range (angle : Z) (st : Controller) :
  in_range (current_servo_pos st) ->
  in_range (current_servo_pos (snd (set_servo_position angle st))).
Proof.
  intros Hst. rewrite set_servo_position_run.
  destruct ((0 <=? angle) && (angle <=? 180)) eqn:Htest; [|exact Hst].
  tests. cbn [snd]. ctl. unfold in_range. lia.
Qed.

Lemma enable_servo_control_pos (st : Controller) :
  current_servo_pos (snd (enable_servo_control st))
  = servo_allowed_pos (config st).
Proof. rewrite enable_servo_control_run. by ctl. Qed.

Lemma disable_servo_control_pos (st : Controller) :
  current_servo_pos (snd (disable_servo_control st))
  = servo_default_pos (config st).
Proof. rewrite disable_servo_control_run. by ctl. Qed.

(** With both configured positions in range, every method that writes the
    position keeps it in range. *)
Lemma position_in_range_when_configured (st : Controller) :
  in_range (servo_allowed_pos (config st)) ->
  in_range (servo_default_pos (config st)) ->
  in_range (current_servo_pos st) ->
  in_range (current_servo_pos (snd (enable_servo_control st)))
  /\ in_range (current_servo_pos (snd (disable_servo_control st)))
  /\ (forall angle,
        in_range (current_servo_pos (snd (set_servo_position angle st))))
  /\ (forall data,
        in_range (current_servo_pos (snd (handle_rfid_data data st)))).
Proof.
  intros Ha Hd Hst. split; [|split; [|split]].
  - by rewrite enable_servo_control_pos.
  - by rewrite disable_servo_control_pos.
  - intros angle. apply set_servo_position_in_range, Hst.
  - intros data. rewrite handle_rfid_data_run. cbv zeta. cbn [snd].
    destruct (stdout st (lit "Card read: " ++ card_id_of data));
      [exact Hst|].
    case_bool_decide.
    + unfold after_grant. ctl. apply Ha.
    + unfold after_deny. ctl. apply Hd.
Qed.

(** C5 fails on the code. [load_config] takes [servo_allowed_pos] from the
    file as it is and [enable_servo_control] writes it: with 270 in the
    file the controller starts in range, and both an authorized read and
    the console's enable command leave the position at 270, with nothing
    refused. *)
Theorem position_out_of_range_from_config :
  let st := started (Loaded allowed_270) port_up in
  let granted := snd (handle_rfid_data (bytes_of "A1B2C3D4") st) in
  let enabled := snd (enable_servo_control st) in
  in_range (current_servo_pos st)
  /\ fst (handle_rfid_data (bytes_of "A1B2C3D4") st) = Return tt
  /\ current_servo_pos granted = 270
  /\ ~ in_range (current_servo_pos granted)
  /\ fst (enable_servo_control st) = Return tt
  /\ current_servo_pos enabled = 270
  /\ ~ in_range (current_servo_pos enabled).
Proof.
  cbv zeta.
  assert (Hst : current_servo_pos (started (Loaded allowed_270) port_up) = 90)
    by reflexivity.
  assert (Hg : current_servo_pos
                 (snd (handle_rfid_data (bytes_of "A1B2C3D4")
                         (started (Loaded allowed_270) port_up))) = 270)
    by (vm_compute; reflexivity).
  assert (He : current_servo_pos
                 (snd (enable_servo_control
                         (started (Loaded allowed_270) port_up))) = 270)
    by (vm_compute; reflexivity).
  rewrite Hst, Hg, He. unfold in_range.
  split; [lia|]. split; [vm_compute; reflexivity|].
  split; [reflexivity|]. split; [lia|].
  split; [vm_compute; reflexivity|]. split; [reflexivity|lia].
Qed.

(** ** LEDs *)

Lemma app_singleton_neq {A} (l : list A) (x : A) : l ++ [x] <> l.
Proof.
  intros H. apply (f_equal length) in H.
  rewrite length_app in H. simpl in H. lia.
Qed.

(** C10. For a colour without a pin in [led_pins], [control_led] returns
    normally and leaves the whole state, the port and the console
    included, as it was. For a colour with a pin it hands the LED command
    to the port. So a command is emitted exactly when the colour has a
    pin. *)
Theorem control_led_pin_map (color : pystr) (state : bool) (st : Controller) :
  let r := control_led color state st in
  fst r = Return tt
  /\ (led_pins (config st) !! color = None -> r = (Return tt, st))
  /\ (is_Some (led_pins (config st) !! color) ->
      emitted (trace (snd r))
      = emitted (trace st) ++ [line (command_dict (SetLed color state))])
  /\ (emitted (trace (snd r)) <> emitted (trace st)
      <-> is_Some (led_pins (config st) !! color)).
Proof.
  cbv zeta. rewrite control_led_run. cbn [fst snd]. unfold after_led.
  destruct (led_pins (config st) !! color) as [pin|] eqn:Hpin.
  - rewrite after_send_emitted. repeat split; try done.
    all: intros _; apply app_singleton_neq.
  - repeat split; try done.
    all: by intros [? ?].
Qed.

Example control_led_default_colors :
  let st := started FileNotFound port_up in
  emitted (trace (snd (control_led (lit "green") true st)))
  = [wire "{'led': {'green': true}}"]
  /\ emitted (trace (snd (control_led (lit "red") false st)))
     = [wire "{'led': {'red': false}}"]
  /\ control_led (lit "blue") true st = (Return tt, st).
Proof. cbv zeta. repeat split; vm_compute; reflexivity. Qed.

(** ** Registering cards *)

Lemma process_user_input_add_card_run (typed : pystr) (st : Controller) :
  process_user_input_add_card typed st
  = (Return tt,
     if negb (bool_decide (strip typed = []))
        && negb (bool_decide (strip typed ∈ authorized_cards (config st)))
     then log_event (Stdout (lit "Card " ++ strip typed ++ lit " added"))
            (set_config (append_card (strip typed)) st)
     else log_event (Stdout (lit "Invalid or duplicate card ID")) st).
Proof.
  unfold process_user_input_add_card, bind, get, modify, print.
  by case_match.
Qed.

(** C7. The console's add-card command, for the line typed and stripped:
    an identifier already in [authorized_cards] and the empty identifier
    are refused, with the message for it and nothing else changed; any
    other identifier is appended at the end of the list. Entering the same
    line a second time never changes the size of the list. *)
Theorem add_card_spec (typed : pystr) (st : Controller) :
  let card := strip typed in
  let cards := authorized_cards (config st) in
  let st' := snd (process_user_input_add_card typed st) in
  let st'' := snd (process_user_input_add_card typed st') in
  fst (process_user_input_add_card typed st) = Return tt
  /\ ((card ∈ cards) \/ card = [] ->
      st' = log_event (Stdout (lit "Invalid or duplicate card ID")) st)
  /\ ((card ∈ cards) \/ card = [] -> authorized_cards (config st') = cards)
  /\ ((card ∉ cards) /\ card <> [] ->
      authorized_cards (config st') = cards ++ [card])
  /\ length (authorized_cards (config st''))
     = length (authorized_cards (config st')).
Proof.
  cbv zeta.
  rewrite !process_user_input_add_card_run. cbn [fst snd].
  destruct (decide (strip typed = [])) as [He|He].
  { rewrite !(bool_decide_eq_true_2 _ He). cbn [negb andb].
    repeat split; try done. by intros [_ ?]. }
  rewrite !(bool_decide_eq_false_2 _ He). cbn [negb andb].
  destruct (decide (strip typed ∈ authorized_cards (config st))) as [Hi|Hi].
  { rewrite !(bool_decide_eq_true_2 _ Hi). cbn [negb andb config log_event].
    repeat split; try done. by intros [? _]. }
  rewrite !(bool_decide_eq_false_2 _ Hi).
  cbn [negb andb config log_event set_config append_card authorized_cards].
  rewrite bool_decide_eq_true_2 by (apply elem_of_app; right; constructor).
  cbn [negb andb config log_event authorized_cards].
  repeat split; try done; by intros [?|?].
Qed.

Example add_card_default :
  let st := started FileNotFound port_up in
  let add typed s := snd (process_user_input_add_card typed s) in
  authorized_cards (config (add (lit " E5F6G7H8 ") st))
  = [lit "A1B2C3D4"; lit "E5F6G7H8"]
  /\ authorized_cards (config (add (lit "   ") st))
     = [lit "A1B2C3D4"; lit "E5F6G7H8"]
  /\ authorized_cards (config (add (lit "CAFE") (add (lit "CAFE") st)))
     = [lit "A1B2C3D4"; lit "E5F6G7H8"; lit "CAFE"].
Proof. cbv zeta. repeat split; vm_compute; reflexivity. Qed.

(** The console never lists the empty identifier. *)
Lemma add_card_keeps_nonempty (typed : pystr) (st : Controller) :
  ([] ∉ authorized_cards (config st)) ->
  [] ∉ authorized_cards (config (snd (process_user_input_add_card typed st))).
Proof.
  intros Hst. rewrite process_user_input_add_card_run. cbn [snd].
  case_bool_decide as He; cbn [negb andb]; [exact Hst|].
  case_bool_decide as Hi; cbn [negb andb]; [exact Hst|].
  cbn [config log_event set_config append_card authorized_cards].
  rewrite elem_of_app, list_elem_of_singleton.
  intros [?|?]; [done|]. by apply He.
Qed.

Lemma default_config_nonempty : [] ∉ authorized_cards default_config.
Proof. by_evaluation. Qed.

(** ** The encoding of commands *)

(** C8. For every command there is one sequence of bytes, free of line
    feeds, such that encoding the command's dictionary succeeds and gives
    those bytes followed by one line feed; and [send_command], in every
    state and whatever the port does, returns normally and hands exactly
    that line to the port. *)
Theorem encoding_total_deterministic (c : Command) :
  exists body : list byte,
    (x0a ∉ body)
    /\ encode (dumps (command_dict c) ++ [10%N]) = inr (body ++ [x0a])
    /\ forall st : Controller,
         fst (send_command (command_dict c) st) = Return tt
         /\ emitted (trace (snd (send_command (command_dict c) st)))
            = emitted (trace st) ++ [body ++ [x0a]].
Proof.
  exists (map to_byte (dumps (command_dict c))).
  destruct (line_newline (command_dict c)) as [Hline Hnl].
  split; [exact Hnl|]. split; [by rewrite encode_line, Hline|].
  intros st. rewrite send_command_run. cbn [fst snd].
  by rewrite after_send_emitted, Hline.
Qed.

Example encoding_examples :
  line (command_dict (SetLed (lit "green") true))
  = wire "{'led': {'green': true}}"
  /\ line (command_dict (SetServoEnabled false))
     = wire "{'servo': {'enable': false}}"
  /\ line (command_dict (SetServoPosition 135))
     = wire "{'servo': {'set_position': 135}}"
  /\ line (command_dict (StatusSnapshot 90 false 2))
     = wire ("{'status': {'servo': {'position': 90, 'enabled': false}, "
             ++ "'rfid': {'cards_registered': 2}}}")
  /\ line (command_dict (SetLed [233%N; 10%N] true))
     = wire "{'led': {'\u00e9\n': true}}".
Proof. repeat split; vm_compute; reflexivity. Qed.

(** The status report is one of the commands. *)
Lemma send_status_updates_body_run (st : Controller) :
  send_status_updates_body st
  = (Return tt,
     log_event (Sleep 2)
       (after_send
          (command_dict
             (StatusSnapshot (current_servo_pos st) (servo_control_enabled st)
                (Z.of_nat (length (authorized_cards (config st))))))
          st)).
Proof.
  unfold send_status_updates_body, bind, get, sleep, modify.
  by rewrite send_command_run.
Qed.

(** * Further properties *)

(** ** Stripping *)

Lemma lstrip_nil (s : pystr) :
  lstrip s = [] <-> Forall (fun c => isspace c = true) s.
Proof.
  induction s as [|c s IH]; simpl; [by split|].
  destruct (isspace c) eqn:Hc.
  - rewrite IH. split; [by constructor|]. by inversion 1.
  - split; [done|]. inversion 1; congruence.
Qed.

Lemma lstrip_app_keep (s r : pystr) :
  lstrip s <> [] -> lstrip (s ++ r) = lstrip s ++ r.
Proof.
  induction s as [|c s IH]; simpl; [done|].
  destruct (isspace c); [exact IH|done].
Qed.

Lemma lstrip_head (s : pystr) (c : N) (t : pystr) :
  lstrip s = c :: t -> isspace c = false.
Proof.
  induction s as [|a s IH]; simpl; [done|].
  destruct (isspace a) eqn:Ha; [exact IH|]. by intros [= <- _].
Qed.

Lemma lstrip_suffix (s : pystr) :
  exists l, s = l ++ lstrip s /\ Forall (fun c => isspace c = true) l.
Proof.
  induction s as [|a s (l & Hs & Hl)]; simpl; [by exists []|].
  destruct (isspace a) eqn:Ha.
  - exists (a :: l). split; [by rewrite Hs at 1|by constructor].
  - by exists [].
Qed.

Lemma rstrip_prefix (s : pystr) :
  exists r, s = rstrip s ++ r /\ Forall (fun c => isspace c = true) r.
Proof.
  unfold rstrip. destruct (lstrip_suffix (rev s)) as (l & Hs & Hl).
  exists (rev l). split; [|by apply Forall_rev].
  by rewrite <- rev_app_distr, <- Hs, rev_involutive.
Qed.

Lemma rstrip_spaces (s r : pystr) :
  Forall (fun c => isspace c = true) r -> rstrip (s ++ r) = rstrip s.
Proof.
  intros Hr. unfold rstrip. rewrite rev_app_distr.
  by rewrite lstrip_spaces by (by apply Forall_rev).
Qed.

(** White space around a string does not change what [strip] returns. *)
Lemma strip_pad (l s r : pystr) :
  Forall (fun c => isspace c = true) l ->
  Forall (fun c => isspace c = true) r ->
  strip (l ++ s ++ r) = strip s.
Proof.
  intros Hl Hr. unfold strip. rewrite lstrip_spaces by exact Hl.
  destruct (lstrip s) as [|c t] eqn:Hs.
  - apply lstrip_nil in Hs.
    assert (lstrip (s ++ r) = []) as ->; [|done].
    apply lstrip_nil, Forall_app. by split.
  - rewrite lstrip_app_keep by (by rewrite Hs).
    rewrite Hs. by apply rstrip_spaces.
Qed.

Lemma strip_head (s : pystr) (c : N) (t : pystr) :
  strip s = c :: t -> isspace c = false.
Proof.
  unfold strip. intros Hs.
  destruct (rstrip_prefix (lstrip s)) as (r & Hr & _).
  rewrite Hs in Hr. by apply (lstrip_head s c (t ++ r)).
Qed.

Lemma strip_last (s t : pystr) (c : N) :
  strip s = t ++ [c] -> isspace c = false.
Proof.
  unfold strip, rstrip. intros Hs.
  apply (f_equal (@rev N)) in Hs.
  rewrite rev_involutive, rev_app_distr in Hs.
  by apply (lstrip_head _ _ _ Hs).
Qed.

Lemma strip_elem (s : pystr) (c : N) : c ∈ strip s -> c ∈ s.
Proof.
  intros Hc. unfold strip in Hc.
  destruct (rstrip_prefix (lstrip s)) as (r & Hr & _).
  destruct (lstrip_suffix s) as (l & Hl & _).
  rewrite Hl, Hr. rewrite !elem_of_app. auto.
Qed.

(** ** Reads *)

Lemma chars_of_spaces (l : list byte) :
  Forall space_byte l -> Forall (fun c => isspace c = true) (chars_of l).
Proof. unfold chars_of. intros H. by apply Forall_fmap. Qed.

(** X1. White space before and after the identifier on the card makes no
    difference: the read is handled as the read without it, down to the
    lines printed and the commands sent. *)
Theorem reads_ignore_surrounding_whitespace
    (l data r : list byte) (st : Controller) :
  Forall space_byte l -> Forall space_byte r ->
  handle_rfid_data (l ++ data ++ r) st = handle_rfid_data data st.
Proof.
  intros Hl Hr. rewrite !handle_rfid_data_run.
  assert (card_id_of (l ++ data ++ r) = card_id_of data) as ->; [|done].
  unfold card_id_of, chars_of. rewrite !map_app.
  apply strip_pad; by apply chars_of_spaces.
Qed.

Lemma reads_ignore_surrounding_whitespace_witness :
  let st := started FileNotFound port_down in
  Forall space_byte [x09; x20] /\ Forall space_byte [x0d; x0a]
  /\ handle_rfid_data ([x09; x20] ++ bytes_of "A1B2C3D4" ++ [x0d; x0a]) st
     = handle_rfid_data (bytes_of "A1B2C3D4") st.
Proof.
  intros st.
  assert (Hl : Forall space_byte [x09; x20]) by (by repeat constructor).
  assert (Hr : Forall space_byte [x0d; x0a]) by (by repeat constructor).
  split; [exact Hl|]. split; [exact Hr|].
  exact (reads_ignore_surrounding_whitespace _ _ _ st Hl Hr).
Defined.

(** X2. A listed card that starts or ends with white space, or holds a
    character above U+00FF, is matched by no read at all. *)
Theorem never_read_cards_match_no_read (card : pystr) (data : list byte) :
  never_read card -> card_id_of data <> card.
Proof.
  intros [(c & t & -> & Hc)|[(t & c & -> & Hc)|(c & Hin & Hc)]] Heq.
  - apply strip_head in Heq. congruence.
  - apply strip_last in Heq. congruence.
  - rewrite <- Heq in Hin. apply strip_elem in Hin.
    unfold chars_of in Hin. apply list_elem_of_fmap in Hin as (b & -> & _).
    pose proof (Byte.to_N_bounded b). lia.
Qed.

Lemma never_read_cards_match_no_read_witness :
  never_read (lit "A1B2C3D4 ")
  /\ card_id_of (bytes_of "A1B2C3D4 ") <> lit "A1B2C3D4 ".
Proof.
  assert (H : never_read (lit "A1B2C3D4 ")).
  { right. left. by exists (lit "A1B2C3D4"), 32%N. }
  split; [exact H|].
  exact (never_read_cards_match_no_read _ (bytes_of "A1B2C3D4 ") H).
Defined.

(** ** Traces *)

Lemma delivered_app (tr1 tr2 : list Event) :
  delivered (tr1 ++ tr2) = delivered tr1 ++ delivered tr2.
Proof. induction tr1 as [|[] tr1 IH]; simpl; by rewrite ?IH. Qed.

Lemma printed_app (tr1 tr2 : list Event) :
  printed (tr1 ++ tr2) = printed tr1 ++ printed tr2.
Proof. induction tr1 as [|[] tr1 IH]; simpl; by rewrite ?IH. Qed.

Lemma sleeps_app (tr1 tr2 : list Event) :
  sleeps (tr1 ++ tr2) = sleeps tr1 ++ sleeps tr2.
Proof. induction tr1 as [|[] tr1 IH]; simpl; by rewrite ?IH. Qed.

Lemma send_events_emitted (f : nat -> option pystr) (n : nat) (j : json) :
  emitted (send_events f n j) = [line j] /\ sleeps (send_events f n j) = [].
Proof. unfold send_events. by destruct (f n). Qed.

Lemma led_events_emitted (c : Config) (f : nat -> option pystr) (n : nat)
    (color : pystr) (state : bool) :
  emitted (led_events c f n color state) = led_lines c color state
  /\ sleeps (led_events c f n color state) = [].
Proof.
  unfold led_events, led_lines.
  destruct (led_pins c !! color); [apply send_events_emitted|done].
Qed.

Lemma after_send_trace_eq (j : json) (st : Controller) :
  trace (after_send j st) = trace st ++ send_events (faults st) (writes st) j.
Proof.
  unfold after_send, send_events.
  destruct (faults st (writes st)); simpl; by rewrite <- ?app_assoc.
Qed.

Lemma after_led_trace_eq (color : pystr) (state : bool) (st : Controller) :
  trace (after_led color state st)
  = trace st ++ led_events (config st) (faults st) (writes st) color state.
Proof.
  unfold after_led, led_events.
  destruct (led_pins (config st) !! color);
    [apply after_send_trace_eq|by rewrite app_nil_r].
Qed.

Lemma after_led_writes (color : pystr) (state : bool) (st : Controller) :
  writes (after_led color state st)
  = (writes st + led_writes (config st) color)%nat.
Proof.
  unfold after_led, led_writes.
  destruct (led_pins (config st) !! color);
    [rewrite after_send_writes|]; lia.
Qed.

(** The parts of the state a method leaves alone, seen through the
    states it goes through. *)
Ltac frame :=
  repeat progress
    (autorewrite with ctl;
     rewrite ?after_send_writes, ?after_led_writes;
     cbn [fst snd config faults writes trace servo_control_enabled
          current_servo_pos log_event count_write set_config set_current_servo_pos
          set_servo_control_enabled]).

(** Everything a granted read adds to the trace after the line that
    echoes the card. *)
Lemma after_grant_trace_eq (st : Controller) :
  trace (after_grant st)
  = trace st
    ++ [Stdout (lit "Access granted")]
    ++ led_events (config st) (faults st) (writes st) (lit "green") true
    ++ send_events (faults st)
         (writes st + led_writes (config st) (lit "green"))
         (command_dict (SetServoEnabled true))
    ++ [Sleep 1]
    ++ led_events (config st) (faults st)
         (S (writes st + led_writes (config st) (lit "green")))
         (lit "green") false.
Proof.
  unfold after_grant. rewrite after_led_trace_eq. cbn [trace log_event].
  rewrite after_send_trace_eq.
  cbn [trace set_current_servo_pos set_servo_control_enabled].
  rewrite after_led_trace_eq. cbn [trace log_event].
  frame. by rewrite <- !app_assoc.
Qed.

Lemma after_deny_trace_eq (st : Controller) :
  trace (after_deny st)
  = trace st
    ++ [Stdout (lit "Access denied")]
    ++ led_events (config st) (faults st) (writes st) (lit "red") true
    ++ send_events (faults st)
         (writes st + led_writes (config st) (lit "red"))
         (command_dict (SetServoEnabled false))
    ++ [Sleep 1]
    ++ led_events (config st) (faults st)
         (S (writes st + led_writes (config st) (lit "red")))
         (lit "red") false.
Proof.
  unfold after_deny. rewrite after_led_trace_eq. cbn [trace log_event].
  rewrite after_send_trace_eq.
  cbn [trace set_current_servo_pos set_servo_control_enabled].
  rewrite after_led_trace_eq. cbn [trace log_event].
  frame. by rewrite <- !app_assoc.
Qed.

(** ** What a read does, in one place *)

Lemma after_send_stdout (j : json) (st : Controller) :
  stdout (after_send j st) = stdout st.
Proof. unfold after_send. by destruct (faults st (writes st)). Qed.

Lemma after_led_stdout (color : pystr) (state : bool) (st : Controller) :
  stdout (after_led color state st) = stdout st.
Proof. unfold after_led. case_match; [apply after_send_stdout|done]. Qed.

Lemma handle_rfid_data_servo_state (data : list byte) (st : Controller) :
  echoes st data ->
  servo_state (snd (handle_rfid_data data st))
  = if authorized (config st) data
    then (true, servo_allowed_pos (config st))
    else (false, servo_default_pos (config st)).
Proof.
  intros Hecho. rewrite (handle_rfid_data_accepted _ _ Hecho). cbn [snd].
  unfold authorized, servo_state.
  case_bool_decide; [unfold after_grant|unfold after_deny]; by frame.
Qed.

(** A read the console cannot echo leaves the servo as it was. *)
Lemma handle_rfid_data_servo_state_kept (data : list byte) (st : Controller) :
  ~ echoes st data ->
  servo_state (snd (handle_rfid_data data st)) = servo_state st.
Proof.
  unfold echoes. intros Hecho. rewrite handle_rfid_data_run. cbn [snd].
  by destruct (stdout st (lit "Card read: " ++ card_id_of data)).
Qed.

Lemma handle_rfid_data_frame (data : list byte) (st : Controller) :
  config (snd (handle_rfid_data data st)) = config st
  /\ faults (snd (handle_rfid_data data st)) = faults st
  /\ stdout (snd (handle_rfid_data data st)) = stdout st.
Proof.
  rewrite handle_rfid_data_run. cbn [snd].
  destruct (stdout st (lit "Card read: " ++ card_id_of data)); [done|].
  case_bool_decide; [unfold after_grant|unfold after_deny]; frame;
    rewrite !after_led_stdout; cbn [stdout log_event];
    rewrite after_send_stdout; cbn [stdout set_current_servo_pos
      set_servo_control_enabled]; rewrite after_led_stdout; done.
Qed.

Lemma handle_rfid_data_trace (data : list byte) (st : Controller) :
  echoes st data ->
  let granted := authorized (config st) data in
  let color := decision_color granted in
  let n := (writes st + led_writes (config st) color)%nat in
  trace (snd (handle_rfid_data data st))
  = trace st
    ++ [Stdout (lit "Card read: " ++ card_id_of data);
        Stdout (decision_line granted)]
    ++ led_events (config st) (faults st) (writes st) color true
    ++ send_events (faults st) n (command_dict (SetServoEnabled granted))
    ++ [Sleep 1]
    ++ led_events (config st) (faults st) (S n) color false.
Proof.
  intros Hecho. cbv zeta. rewrite (handle_rfid_data_accepted _ _ Hecho).
  cbn [snd]. unfold authorized.
  case_bool_decide; cbn [decision_color decision_line].
  - rewrite after_grant_trace_eq. frame. by rewrite <- !app_assoc.
  - rewrite after_deny_trace_eq. frame. by rewrite <- !app_assoc.
Qed.

Lemma handle_rfid_data_emitted (data : list byte) (st : Controller) :
  echoes st data ->
  emitted (trace (snd (handle_rfid_data data st)))
  = emitted (trace st) ++ read_lines (config st) data.
Proof.
  intros Hecho. rewrite (handle_rfid_data_trace _ _ Hecho).
  unfold read_lines. rewrite !emitted_app.
  rewrite !(proj1 (led_events_emitted _ _ _ _ _)).
  by rewrite (proj1 (send_events_emitted _ _ _)).
Qed.

(** X3. Reading cards, moving the servo, switching LEDs and reporting the
    status never change the configuration: only the console's add-card
    command and [load_config] do. *)
Theorem configuration_is_read_only (st : Controller) :
  (forall data, config (snd (handle_rfid_data data st)) = config st)
  /\ (forall angle, config (snd (set_servo_position angle st)) = config st)
  /\ config (snd (enable_servo_control st)) = config st
  /\ config (snd (disable_servo_control st)) = config st
  /\ (forall color state,
        config (snd (control_led color state st)) = config st)
  /\ (forall j, config (snd (send_command j st)) = config st)
  /\ config (snd (send_status_updates_body st)) = config st.
Proof.
  split; [intros data; apply handle_rfid_data_frame|].
  split.
  { intros angle. rewrite set_servo_position_run.
    case_match; cbn [snd]; frame; reflexivity. }
  split; [rewrite enable_servo_control_run; by frame|].
  split; [rewrite disable_servo_control_run; by frame|].
  split; [intros; rewrite control_led_run; by frame|].
  split; [intros; rewrite send_command_run; by frame|].
  rewrite send_status_updates_body_run. by frame.
Qed.

(** X4. [send_command] makes exactly one call of [ser.write], with the
    line of the command, and never raises. When the call returns nothing
    is printed; when it raises [SerialException] the message is printed
    once and the write is not tried again. Configuration and servo state
    are untouched either way. *)
Theorem send_command_writes_once (j : json) (st : Controller) :
  let st' := snd (send_command j st) in
  fst (send_command j st) = Return tt
  /\ writes st' = S (writes st)
  /\ config st' = config st
  /\ servo_state st' = servo_state st
  /\ trace st'
     = trace st
       ++ match faults st (writes st) with
          | None => [SerialWrite (line j)]
          | Some msg =>
              [SerialFault (line j);
               Stdout (lit "Error sending command: " ++ msg)]
          end.
Proof.
  cbv zeta. rewrite send_command_run. cbn [fst snd].
  split; [done|]. split; [apply after_send_writes|].
  split; [apply after_send_config|].
  split; [unfold servo_state; by frame|].
  apply after_send_trace_eq.
Qed.

(** X5. A read the console can echo pauses exactly once, for one second:
    the LED-on and servo commands come before the pause, the LED-off
    command after it. *)
Theorem dwell_between_commands (data : list byte) (st : Controller) :
  echoes st data ->
  let granted := authorized (config st) data in
  let color := decision_color granted in
  exists before after,
    trace (snd (handle_rfid_data data st))
    = trace st ++ before ++ Sleep 1 :: after
    /\ sleeps before = [] /\ sleeps after = []
    /\ emitted before
       = led_lines (config st) color true
         ++ [line (command_dict (SetServoEnabled granted))]
    /\ emitted after = led_lines (config st) color false.
Proof.
  intros Hecho. cbv zeta. rewrite (handle_rfid_data_trace _ _ Hecho).
  cbv zeta.
  set (granted := authorized (config st) data).
  set (color := decision_color granted).
  set (n := (writes st + led_writes (config st) color)%nat).
  exists ([Stdout (lit "Card read: " ++ card_id_of data);
           Stdout (decision_line granted)]
          ++ led_events (config st) (faults st) (writes st) color true
          ++ send_events (faults st) n
               (command_dict (SetServoEnabled granted))),
         (led_events (config st) (faults st) (S n) color false).
  split; [by rewrite <- !app_assoc|].
  rewrite !sleeps_app, !emitted_app.
  rewrite !(proj1 (led_events_emitted _ _ _ _ _)).
  rewrite !(proj2 (led_events_emitted _ _ _ _ _)).
  rewrite (proj1 (send_events_emitted _ _ _)).
  by rewrite (proj2 (send_events_emitted _ _ _)).
Qed.

Lemma dwell_between_commands_witness :
  let st := set_stdout ascii_stdout (started FileNotFound port_up) in
  let data := bytes_of "A1B2C3D4" in
  echoes st data
  /\ sleeps (trace (snd (handle_rfid_data data st))) = sleeps (trace st) ++ [1].
Proof.
  intros st data.
  assert (Hecho : echoes st data) by reflexivity.
  split; [exact Hecho|].
  destruct (dwell_between_commands data st Hecho)
    as (before & after & -> & Hb & Ha & _).
  by rewrite !sleeps_app, Hb; cbn [sleeps]; rewrite Ha.
Defined.

(** ** The port *)

Lemma send_events_up (f : nat -> option pystr) (n : nat) (j : json) :
  f n = None ->
  delivered (send_events f n j) = [line j] /\ printed (send_events f n j) = [].
Proof. unfold send_events. by intros ->. Qed.

Lemma send_events_down (f : nat -> option pystr) (n : nat) (j : json) :
  is_Some (f n) ->
  delivered (send_events f n j) = []
  /\ length (printed (send_events f n j)) = 1%nat.
Proof. unfold send_events. by intros [msg ->]. Qed.

Lemma led_events_up (c : Config) (f : nat -> option pystr) (n : nat)
    (color : pystr) (state : bool) :
  f n = None ->
  delivered (led_events c f n color state) = led_lines c color state
  /\ printed (led_events c f n color state) = [].
Proof.
  unfold led_events, led_lines. intros Hf.
  destruct (led_pins c !! color); [by apply send_events_up|done].
Qed.

Lemma led_events_down (c : Config) (f : nat -> option pystr) (n : nat)
    (color : pystr) (state : bool) :
  is_Some (f n) ->
  delivered (led_events c f n color state) = []
  /\ length (printed (led_events c f n color state))
     = length (led_lines c color state).
Proof.
  unfold led_events, led_lines. intros Hf.
  destruct (led_pins c !! color); [by apply send_events_down|done].
Qed.

(** X6. On a port that accepts every write, each command of a read the
    console can echo reaches the port, and the console shows the two
    lines of the read and nothing else. *)
Theorem working_port_delivers_every_command
    (data : list byte) (st : Controller) :
  (forall n, faults st n = None) ->
  echoes st data ->
  let st' := snd (handle_rfid_data data st) in
  delivered (trace st') = delivered (trace st) ++ read_lines (config st) data
  /\ printed (trace st')
     = printed (trace st)
       ++ [lit "Card read: " ++ card_id_of data;
           decision_line (authorized (config st) data)].
Proof.
  intros Hup Hecho. cbv zeta. rewrite (handle_rfid_data_trace _ _ Hecho).
  cbv zeta. unfold read_lines. rewrite !delivered_app, !printed_app.
  rewrite !(proj1 (led_events_up _ _ _ _ _ (Hup _))).
  rewrite !(proj2 (led_events_up _ _ _ _ _ (Hup _))).
  rewrite (proj1 (send_events_up _ _ _ (Hup _))).
  rewrite (proj2 (send_events_up _ _ _ (Hup _))).
  by rewrite !app_nil_r.
Qed.

Lemma working_port_delivers_every_command_witness :
  let st := set_stdout ascii_stdout (started FileNotFound port_up) in
  let st' := snd (handle_rfid_data (bytes_of "ZZZZ9999") st) in
  (forall n, faults st n = None)
  /\ echoes st (bytes_of "ZZZZ9999")
  /\ delivered (trace st')
     = delivered (trace st) ++ read_lines (config st) (bytes_of "ZZZZ9999").
Proof.
  intros st st'.
  assert (Hup : forall n, faults st n = None) by reflexivity.
  assert (Hecho : echoes st (bytes_of "ZZZZ9999")) by reflexivity.
  split; [exact Hup|]. split; [exact Hecho|].
  exact (proj1 (working_port_delivers_every_command _ st Hup Hecho)).
Defined.

(** X7. On a port that refuses every write nothing reaches the hardware,
    yet a read the console can echo changes the recorded servo state as
    if it had; each refused command is reported by one line on the
    console. *)
Theorem dead_port_still_changes_state (data : list byte) (st : Controller) :
  (forall n, is_Some (faults st n)) ->
  echoes st data ->
  let st' := snd (handle_rfid_data data st) in
  delivered (trace st') = delivered (trace st)
  /\ servo_state st'
     = (if authorized (config st) data
        then (true, servo_allowed_pos (config st))
        else (false, servo_default_pos (config st)))
  /\ length (printed (trace st'))
     = (length (printed (trace st)) + 2
        + length (read_lines (config st) data))%nat.
Proof.
  intros Hdown Hecho. cbv zeta. split; [|split].
  - rewrite (handle_rfid_data_trace _ _ Hecho). cbv zeta.
    rewrite !delivered_app.
    rewrite !(proj1 (led_events_down _ _ _ _ _ (Hdown _))).
    rewrite (proj1 (send_events_down _ _ _ (Hdown _))).
    by rewrite !app_nil_r.
  - by apply handle_rfid_data_servo_state.
  - rewrite (handle_rfid_data_trace _ _ Hecho). cbv zeta. unfold read_lines.
    rewrite !printed_app, !length_app.
    rewrite !(proj2 (led_events_down _ _ _ _ _ (Hdown _))).
    rewrite (proj2 (send_events_down _ _ _ (Hdown _))).
    simpl. lia.
Qed.

Lemma dead_port_still_changes_state_witness :
  let st := set_stdout ascii_stdout (started FileNotFound port_down) in
  let st' := snd (handle_rfid_data (bytes_of "A1B2C3D4") st) in
  (forall n, is_Some (faults st n))
  /\ echoes st (bytes_of "A1B2C3D4")
  /\ delivered (trace st') = delivered (trace st)
  /\ servo_state st' = (true, 180).
Proof.
  intros st st'.
  assert (Hdown : forall n, is_Some (faults st n)) by (intros n; by eexists).
  assert (Hecho : echoes st (bytes_of "A1B2C3D4")) by reflexivity.
  split; [exact Hdown|]. split; [exact Hecho|].
  destruct (dead_port_still_changes_state (bytes_of "A1B2C3D4") st Hdown
              Hecho) as (Hd & Hs & _).
  split; [exact Hd | exact Hs].
Defined.

(** ** Reads one after the other *)

(** X8. What a read the console can echo does depends on the
    configuration and on the read only: two controllers with the same
    configuration end in the same servo state and send the same commands,
    whatever their earlier servo state, their history and their ports. *)
Theorem read_outcome_depends_on_configuration_only
    (data : list byte) (st1 st2 : Controller) :
  config st1 = config st2 ->
  echoes st1 data -> echoes st2 data ->
  servo_state (snd (handle_rfid_data data st1))
  = servo_state (snd (handle_rfid_data data st2))
  /\ exists new,
       emitted (trace (snd (handle_rfid_data data st1)))
       = emitted (trace st1) ++ new
       /\ emitted (trace (snd (handle_rfid_data data st2)))
          = emitted (trace st2) ++ new.
Proof.
  intros Hc He1 He2.
  rewrite !handle_rfid_data_servo_state, !handle_rfid_data_emitted by done.
  rewrite Hc. split; [done|]. by eexists.
Qed.

Lemma read_outcome_depends_on_configuration_only_witness :
  let st1 := set_stdout ascii_stdout (started FileNotFound port_up) in
  let st2 := snd (set_servo_position 45 (started FileNotFound port_down)) in
  config st1 = config st2
  /\ echoes st1 (bytes_of "A1B2C3D4") /\ echoes st2 (bytes_of "A1B2C3D4")
  /\ servo_state (snd (handle_rfid_data (bytes_of "A1B2C3D4") st1))
     = servo_state (snd (handle_rfid_data (bytes_of "A1B2C3D4") st2)).
Proof.
  intros st1 st2.
  assert (Hc : config st1 = config st2) by reflexivity.
  assert (He1 : echoes st1 (bytes_of "A1B2C3D4")) by reflexivity.
  assert (He2 : echoes st2 (bytes_of "A1B2C3D4")) by reflexivity.
  split; [exact Hc|]. split; [exact He1|]. split; [exact He2|].
  exact (proj1 (read_outcome_depends_on_configuration_only _ st1 st2 Hc
                  He1 He2)).
Defined.






(** ** Status reports *)

Lemma after_status_frame (st : Controller) :
  config (after_status st) = config st
  /\ servo_state (after_status st) = servo_state st
  /\ emitted (trace (after_status st))
     = emitted (trace st)
       ++ [line (command_dict
                   (StatusSnapshot (current_servo_pos st)
                      (servo_control_enabled st)
                      (Z.of_nat (length (authorized_cards (config st))))))]
  /\ sleeps (trace (after_status st)) = sleeps (trace st) ++ [2].
Proof.
  unfold after_status, servo_state. split; [by frame|]. split; [by frame|].
  split.
  - frame. by rewrite app_nil_r.
  - cbn [trace log_event]. rewrite sleeps_app, after_send_trace_eq.
    rewrite sleeps_app. rewrite (proj2 (send_events_emitted _ _ _)).
    by rewrite app_nil_r.
Qed.

(** X10. The status loop only reports: after any number of turns the
    configuration and the servo state are as before, and each turn has
    sent the same report of position, enabled flag and number of cards
    and paused two seconds. *)
Theorem status_loop_only_reports (turns : nat) (st : Controller) :
  let st' := snd (send_status_updates turns st) in
  let report :=
    line (command_dict
            (StatusSnapshot (current_servo_pos st) (servo_control_enabled st)
               (Z.of_nat (length (authorized_cards (config st)))))) in
  fst (send_status_updates turns st) = Return tt
  /\ config st' = config st
  /\ servo_state st' = servo_state st
  /\ emitted (trace st') = emitted (trace st) ++ replicate turns report
  /\ sleeps (trace st') = sleeps (trace st) ++ replicate turns 2.
Proof.
  cbv zeta. revert st. induction turns as [|n IH]; intros st.
  - cbn. by rewrite !app_nil_r.
  - cbn [send_status_updates]. unfold bind.
    rewrite send_status_updates_body_run. cbv iota beta.
    fold (after_status st).
    destruct (after_status_frame st) as (Hc & Hs & He & Hz).
    destruct (IH (after_status st)) as (Hr & Hc' & Hs' & He' & Hz').
    assert (current_servo_pos (after_status st) = current_servo_pos st
            /\ servo_control_enabled (after_status st)
               = servo_control_enabled st) as [Hp Hen].
    { unfold servo_state in Hs. by injection Hs. }
    rewrite Hp, Hen, Hc in He'.
    split; [exact Hr|]. split; [congruence|]. split; [congruence|].
    split.
    + rewrite He', He. by rewrite <- app_assoc.
    + rewrite Hz', Hz. by rewrite <- app_assoc.
Qed.

Lemma process_user_input_add_card_config (typed : pystr) (st : Controller) :
  let st' := snd (process_user_input_add_card typed st) in
  config st'
  = (if negb (bool_decide (strip typed = []))
        && negb (bool_decide (strip typed ∈ authorized_cards (config st)))
     then append_card (strip typed) (config st) else config st)
  /\ servo_state st' = servo_state st
  /\ emitted (trace st') = emitted (trace st).
Proof.
  cbv zeta. rewrite process_user_input_add_card_run. cbn [snd].
  case_match; unfold servo_state; frame; by rewrite ?app_nil_r.
Qed.

(** X11. A card added at the console is counted by the next status
    report: it says one card more than before, with the servo state
    unchanged. *)
Theorem status_counts_added_card (typed : pystr) (st : Controller) :
  strip typed <> [] ->
  (strip typed ∉ authorized_cards (config st)) ->
  let st1 := snd (process_user_input_add_card typed st) in
  emitted (trace (snd (send_status_updates_body st1)))
  = emitted (trace st)
    ++ [line (command_dict
                (StatusSnapshot (current_servo_pos st)
                   (servo_control_enabled st)
                   (Z.of_nat (length (authorized_cards (config st))) + 1)))].
Proof.
  intros He Hi. cbv zeta.
  destruct (process_user_input_add_card_config typed st) as (Hc & Hs & Hem).
  rewrite (bool_decide_eq_false_2 _ He), (bool_decide_eq_false_2 _ Hi) in Hc.
  cbn [negb andb] in Hc.
  rewrite send_status_updates_body_run. cbn [snd]. fold (after_status
    (snd (process_user_input_add_card typed st))).
  destruct (after_status_frame (snd (process_user_input_add_card typed st)))
    as (_ & _ & -> & _).
  unfold servo_state in Hs. injection Hs as -> ->.
  rewrite Hem, Hc. cbn [authorized_cards append_card].
  rewrite length_app. cbn [length].
  by replace (Z.of_nat (length (authorized_cards (config st)) + 1))
    with (Z.of_nat (length (authorized_cards (config st))) + 1) by lia.
Qed.

Lemma status_counts_added_card_witness :
  let st := started FileNotFound port_up in
  let st1 := snd (process_user_input_add_card (lit " CAFE ") st) in
  strip (lit " CAFE ") <> []
  /\ (strip (lit " CAFE ") ∉ authorized_cards (config st))
  /\ emitted (trace (snd (send_status_updates_body st1)))
     = emitted (trace st) ++ [line (command_dict (StatusSnapshot 90 false 3))].
Proof.
  intros st st1.
  assert (He : strip (lit " CAFE ") <> []) by by_evaluation.
  assert (Hi : strip (lit " CAFE ") ∉ authorized_cards (config st))
    by by_evaluation.
  split; [exact He|]. split; [exact Hi|].
  exact (status_counts_added_card (lit " CAFE ") st He Hi).
Defined.

(** ** Registering and reading *)

Lemma process_user_input_add_card_stdout (typed : pystr) (st : Controller) :
  stdout (snd (process_user_input_add_card typed st)) = stdout st.
Proof. rewrite process_user_input_add_card_run. cbn [snd]. by case_match. Qed.



(** X13. Adding a card changes the decision for that identifier only:
    every read with another identifier is decided, and leaves the servo,
    as it would have before. *)
Theorem adding_a_card_changes_one_decision
    (typed : pystr) (data : list byte) (st : Controller) :
  card_id_of data <> strip typed ->
  let st1 := snd (process_user_input_add_card typed st) in
  authorized (config st1) data = authorized (config st) data
  /\ servo_state (snd (handle_rfid_data data st1))
     = servo_state (snd (handle_rfid_data data st)).
Proof.
  intros Hne. cbv zeta.
  destruct (process_user_input_add_card_config typed st) as (Hc & _).
  assert (authorized (config (snd (process_user_input_add_card typed st)))
            data = authorized (config st) data) as Ha.
  { rewrite Hc. case_match; [|done]. unfold authorized.
    cbn [authorized_cards append_card]. apply bool_decide_ext.
    rewrite elem_of_app, list_elem_of_singleton. tauto. }
  split; [exact Ha|].
  pose proof (process_user_input_add_card_stdout typed st) as Ho.
  destruct (process_user_input_add_card_config typed st) as (_ & Hs & _).
  destruct (stdout st (lit "Card read: " ++ card_id_of data)) as [msg|]
    eqn:Hecho.
  - rewrite !handle_rfid_data_servo_state_kept; [exact Hs| |];
      unfold echoes; congruence.
  - rewrite !handle_rfid_data_servo_state, Ha, Hc;
      [by case_match|done|unfold echoes; congruence].
Qed.

Lemma adding_a_card_changes_one_decision_witness :
  let st := started FileNotFound port_up in
  let st1 := snd (process_user_input_add_card (lit "CAFE") st) in
  card_id_of (bytes_of "cafe") <> strip (lit "CAFE")
  /\ authorized (config st1) (bytes_of "cafe")
     = authorized (config st) (bytes_of "cafe").
Proof.
  intros st st1.
  assert (Hne : card_id_of (bytes_of "cafe") <> strip (lit "CAFE"))
    by by_evaluation.
  split; [exact Hne|].
  exact (proj1 (adding_a_card_changes_one_decision _ _ st Hne)).
Defined.

(** ** Lines on the wire *)

Definition printable_byte (b : byte) : Prop :=
  (32 <= Byte.to_N b <= 126)%N.

(** Colour names that [json.dumps] writes as they are: printable ASCII
    without quote and backslash. *)
Definition plain (color : pystr) : Prop :=
  Forall (fun c => printable c /\ c <> 34%N /\ c <> 92%N) color.

Definition plain_colors (c : Command) : Prop :=
  match c with
  | SetLed color _ => plain color
  | _ => True
  end.

(** X14. Whatever the command, and whatever characters a colour name
    holds, the line handed to the port is printable ASCII followed by
    one line feed: no control character and no byte above 0x7E. *)
Theorem lines_are_printable_ascii (j : json) (st : Controller) :
  exists body,
    emitted (trace (snd (send_command j st)))
    = emitted (trace st) ++ [body ++ [x0a]]
    /\ Forall printable_byte body.
Proof.
  exists (map to_byte (dumps j)). rewrite send_command_run. cbn [snd].
  rewrite after_send_emitted, (proj1 (line_newline j)). split; [done|].
  apply Forall_fmap. eapply Forall_impl; [apply dumps_printable|].
  intros c Hc. unfold printable_byte. cbn. rewrite to_N_to_byte.
  unfold printable in Hc. rewrite N.mod_small by lia. exact Hc.
Qed.

Lemma to_byte_inj (c1 c2 : N) :
  (c1 < 256)%N -> (c2 < 256)%N -> to_byte c1 = to_byte c2 -> c1 = c2.
Proof.
  intros H1 H2 Heq. apply (f_equal Byte.to_N) in Heq.
  rewrite !to_N_to_byte, !N.mod_small in Heq by lia. exact Heq.
Qed.

Lemma map_to_byte_inj (s1 s2 : pystr) :
  Forall (fun c => (c < 256)%N) s1 -> Forall (fun c => (c < 256)%N) s2 ->
  map to_byte s1 = map to_byte s2 -> s1 = s2.
Proof.
  intros H1. revert s2. induction H1 as [|c1 s1 Hc1 _ IH]; intros s2 H2 Heq.
  - by destruct s2.
  - destruct H2 as [|c2 s2 Hc2 H2]; [done|]. cbn in Heq.
    injection Heq as Hc Hs. f_equal; [by apply to_byte_inj|by apply IH].
Qed.

Lemma line_inj (j1 j2 : json) : line j1 = line j2 -> dumps j1 = dumps j2.
Proof.
  unfold line. intros Heq.
  assert (forall j, Forall (fun c => (c < 256)%N) (dumps j ++ [10%N])) as Hb.
  { intros j. apply Forall_app. split; [|by repeat constructor].
    eapply Forall_impl; [apply dumps_printable|].
    intros c Hc. unfold printable in Hc. lia. }
  apply map_to_byte_inj in Heq; [|apply Hb..].
  by apply app_inv_tail in Heq.
Qed.

Definition digit (c : N) : Prop := (48 <= c <= 57)%N.

(** What may follow a number in a line: nothing, or a character that is
    neither a digit nor the minus sign. *)
Definition ends_number (x : pystr) : Prop :=
  match x with
  | [] => True
  | c :: _ => ~ digit c /\ c <> 45%N
  end.

Lemma uint_digits_digit (u : Decimal.uint) : Forall digit (uint_digits u).
Proof. induction u; simpl; constructor; try assumption; unfold digit; lia. Qed.

Lemma uint_digits_inj (u v : Decimal.uint) :
  uint_digits u = uint_digits v -> u = v.
Proof.
  revert v. induction u; destruct v; simpl; try discriminate;
    try reflexivity; intros [= H]; f_equal; auto.
Qed.

Lemma digits_app_inj (d1 d2 x y : pystr) :
  Forall digit d1 -> Forall digit d2 -> ends_number x -> ends_number y ->
  d1 ++ x = d2 ++ y -> d1 = d2 /\ x = y.
Proof.
  intros H1. revert d2.
  induction H1 as [|c1 d1 Hc1 _ IH]; intros d2 H2 Hx Hy Heq.
  - destruct H2 as [|c2 d2 Hc2 _]; [done|].
    cbn in Heq. subst x. cbn in Hx. tauto.
  - destruct H2 as [|c2 d2 Hc2 H2].
    + cbn in Heq. subst y. cbn in Hy. tauto.
    + cbn in Heq. injection Heq as -> Heq.
      destruct (IH d2 H2 Hx Hy Heq) as [-> ->]. done.
Qed.

Lemma repr_int_app_inj (a b : Z) (x y : pystr) :
  ends_number x -> ends_number y ->
  repr_int a ++ x = repr_int b ++ y -> a = b /\ x = y.
Proof.
  intros Hx Hy. unfold repr_int.
  pose proof (uint_digits_digit (N.to_uint (Z.to_N (- a)))) as Hna.
  pose proof (uint_digits_digit (N.to_uint (Z.to_N (- b)))) as Hnb.
  pose proof (uint_digits_digit (N.to_uint (Z.to_N a))) as Hpa.
  pose proof (uint_digits_digit (N.to_uint (Z.to_N b))) as Hpb.
  destruct (Z.ltb_spec a 0) as [Ha|Ha], (Z.ltb_spec b 0) as [Hb|Hb];
    cbn [lit app]; intros Heq.
  - injection Heq as Heq.
    destruct (digits_app_inj _ _ _ _ Hna Hnb Hx Hy Heq) as [Hd ->].
    apply uint_digits_inj, DecimalN.Unsigned.to_uint_inj in Hd.
    split; [lia|done].
  - exfalso. destruct Hpb as [|c d Hc _].
    + cbn in Heq. subst y. cbn in Hy. tauto.
    + cbn in Heq. injection Heq as <- _. unfold digit in Hc. cbn in Hc. lia.
  - exfalso. destruct Hpa as [|c d Hc _].
    + cbn in Heq. subst x. cbn in Hx. tauto.
    + cbn in Heq. injection Heq as -> _. unfold digit in Hc. cbn in Hc. lia.
  - destruct (digits_app_inj _ _ _ _ Hpa Hpb Hx Hy Heq) as [Hd ->].
    apply uint_digits_inj, DecimalN.Unsigned.to_uint_inj in Hd.
    split; [lia|done].
Qed.

Lemma escape_char_plain (c : N) :
  printable c /\ c <> 34%N /\ c <> 92%N -> escape_char c = [c].
Proof.
  unfold printable, escape_char. intros (Hp & Hq & Hb).
  destruct (N.eqb_spec c 34); [lia|]. destruct (N.eqb_spec c 92); [lia|].
  destruct (N.eqb_spec c 10); [lia|]. destruct (N.eqb_spec c 13); [lia|].
  destruct (N.eqb_spec c 9); [lia|]. destruct (N.eqb_spec c 8); [lia|].
  destruct (N.eqb_spec c 12); [lia|].
  destruct ((32 <=? c)%N && (c <=? 126)%N) eqn:E; [done|].
  apply andb_false_iff in E as [E|E]; tests; lia.
Qed.

Lemma encode_basestring_ascii_plain (s : pystr) :
  plain s -> encode_basestring_ascii s = 34%N :: s ++ [34%N].
Proof.
  unfold encode_basestring_ascii. intros Hs. cbn [app]. do 2 f_equal.
  induction Hs as [|c s Hc _ IH]; [done|].
  cbn [map concat]. by rewrite escape_char_plain, IH.
Qed.

Lemma plain_app_inj (s1 s2 x y : pystr) :
  plain s1 -> plain s2 ->
  s1 ++ 34%N :: x = s2 ++ 34%N :: y -> s1 = s2 /\ x = y.
Proof.
  intros H1. revert s2.
  induction H1 as [|c1 s1 Hc1 _ IH]; intros s2 H2 Heq.
  - destruct H2 as [|c2 s2 Hc2 _]; cbn in Heq.
    + by injection Heq as ->.
    + injection Heq as <- _. tauto.
  - destruct H2 as [|c2 s2 Hc2 H2]; cbn in Heq.
    + injection Heq as -> _. tauto.
    + injection Heq as -> Heq. by destruct (IH s2 H2 Heq) as [-> ->].
Qed.

Ltac number_end := cbn; unfold digit; split; lia.

(** X15. Lines tell commands apart: two commands whose LED colours are
    plain names, written as the same line, are the same command, so the
    receiving end can recover colour, state, angle and status numbers. *)
Theorem command_lines_are_unambiguous (c1 c2 : Command) :
  plain_colors c1 -> plain_colors c2 ->
  line (command_dict c1) = line (command_dict c2) -> c1 = c2.
Proof.
  intros W1 W2 Heq. apply line_inj in Heq.
  destruct c1 as [color1 [] | [] | a1 | p1 [] n1],
           c2 as [color2 [] | [] | a2 | p2 [] n2];
    cbn [plain_colors] in W1, W2; cbn [command_dict dumps] in Heq;
    rewrite ?(encode_basestring_ascii_plain color1 W1),
            ?(encode_basestring_ascii_plain color2 W2) in Heq;
    cbv -[app repr_int] in Heq;
    repeat (rewrite <- ?app_assoc, ?app_nil_r in Heq; cbn [app] in Heq);
    simplify_eq; try reflexivity.
  1-4: by apply plain_app_inj in Heq as [-> Heq]; [simplify_eq| |].
  - apply repr_int_app_inj in Heq as [-> _]; [done|number_end..].
  - apply repr_int_app_inj in Heq as [-> Heq]; [|number_end..].
    simplify_eq.
    by apply repr_int_app_inj in Heq as [-> _]; [|number_end..].
  - apply repr_int_app_inj in Heq as [-> Heq]; [|number_end..].
    simplify_eq.
  - apply repr_int_app_inj in Heq as [-> Heq]; [|number_end..].
    simplify_eq.
  - apply repr_int_app_inj in Heq as [-> Heq]; [|number_end..].
    simplify_eq.
    by apply repr_int_app_inj in Heq as [-> _]; [|number_end..].
Qed.

Lemma command_lines_are_unambiguous_witness :
  let c1 := SetLed (lit "green") true in
  let c2 := SetLed (lit "green") true in
  plain_colors c1 /\ plain_colors c2
  /\ line (command_dict c1) = line (command_dict c2) /\ c1 = c2.
Proof.
  intros c1 c2.
  assert (W : plain (lit "green")).
  { repeat constructor; unfold printable; cbn; lia. }
  assert (Heq : line (command_dict c1) = line (command_dict c2))
    by reflexivity.
  split; [exact W|]. split; [exact W|]. split; [exact Heq|].
  exact (command_lines_are_unambiguous c1 c2 W W Heq).
Defined.

(** ** Start-up *)

(** A port that cannot be opened, the loop going on to the next one. *)
Definition refuses (c : Config) (port : Port) : Prop :=
  exists e, open_at port (baud_rate c) = Some e
            /\ is_SerialException e = true.

Lemma init_serial_connection_skips (c : Config) (before rest : list Port) :
  Forall (refuses c) before ->
  init_serial_connection c (before ++ rest) = init_serial_connection c rest.
Proof.
  induction 1 as [|port before (e & He & Hs) _ IH]; [done|].
  cbn [app init_serial_connection]. by rewrite He, Hs.
Qed.

(** X16. [init_serial_connection] takes the first listed port that opens
    at the configured baud rate: it returns a port exactly when every
    port listed before it raised [SerialException] and it opened, and it
    raises [ConnectionError] exactly when every listed port raised
    [SerialException] (an empty list included). *)
Theorem init_serial_connection_first_port (c : Config) (ports : list Port) :
  (forall port msg,
     init_serial_connection c ports = inr (port, msg)
     <-> msg = lit "Connected to Arduino on " ++ device port
         /\ exists before after,
              ports = before ++ port :: after
              /\ Forall (refuses c) before
              /\ open_at port (baud_rate c) = None)
  /\ (forall msg,
        init_serial_connection c ports = inl (ConnectionError msg)
        <-> msg = lit "Could not connect to Arduino"
            /\ Forall (refuses c) ports).
Proof.
  split.
  - intros port msg. split.
    + induction ports as [|p ports IH]; cbn [init_serial_connection];
        [done|].
      destruct (open_at p (baud_rate c)) as [e|] eqn:Hp.
      * destruct (is_SerialException e) eqn:He; [|done].
        intros Hrun. destruct (IH Hrun) as (-> & before & after & -> & Hb & Ho).
        split; [done|]. exists (p :: before), after.
        split; [done|]. split; [|done]. constructor; [|done]. by exists e.
      * intros [= <- <-]. split; [done|]. by exists [], ports.
    + intros (-> & before & after & -> & Hb & Ho).
      rewrite init_serial_connection_skips by exact Hb.
      cbn [init_serial_connection]. by rewrite Ho.
  - intros msg. split.
    + induction ports as [|p ports IH]; cbn [init_serial_connection].
      * by intros [= <-].
      * destruct (open_at p (baud_rate c)) as [e|] eqn:Hp; [|done].
        destruct (is_SerialException e) eqn:He; [|done].
        intros Hrun. destruct (IH Hrun) as [-> Hall].
        split; [done|]. constructor; [|done]. by exists e.
    + intros [-> Hall].
      rewrite <- (app_nil_r ports).
      by rewrite init_serial_connection_skips by exact Hall.
Qed.

(** X17. The configuration file comes too late for the hardware:
    [__init__] looks for the reader and opens the port with the built-in
    configuration. When that fails, it fails with the same exception for
    every [config.json]; when it succeeds, the port is the same for every
    [config.json], and the file can only stop the start-up by an exception
    [load_config] does not catch. Otherwise the controller is disabled at
    position 90, has sent nothing, and holds the built-in configuration
    overlaid with the keys of the file. *)
Theorem startup_hardware_ignores_config_file
    (init_rfid_reader : Config -> option exn) (ports : list Port)
    (file : ConfigFile) (port_faults : Port -> nat -> option pystr) :
  (forall e,
     init_controller init_rfid_reader ports FileNotFound port_faults = inl e ->
     init_controller init_rfid_reader ports file port_faults = inl e)
  /\ (forall port st0,
        init_controller init_rfid_reader ports FileNotFound port_faults
        = inr (port, st0) ->
        match file with
        | Fails e =>
            init_controller init_rfid_reader ports file port_faults
            = inl (Propagated e)
        | _ =>
            exists st,
              init_controller init_rfid_reader ports file port_faults
              = inr (port, st)
              /\ servo_state st = (false, 90)
              /\ emitted (trace st) = []
              /\ config st
                 = match file with
                   | Loaded new_config => update default_config new_config
                   | _ => default_config
                   end
        end).
Proof.
  unfold init_controller. cbv zeta.
  destruct (init_rfid_reader default_config) as [e|]; [by split|].
  destruct (init_serial_connection default_config ports)
    as [e|[port connected]]; [by split|].
  split; [done|]. intros port' st0 [= <- _].
  destruct file; [by eexists..|done].
Qed.

Example startup_succeeds :
  let usb := {| device := lit "/dev/ttyUSB0";
                open_at := fun _ => Some (SerialException (lit "busy")) |} in
  let acm := {| device := lit "/dev/ttyACM0"; open_at := fun _ => None |} in
  exists st,
    init_controller (fun _ => None) [usb; acm] (Loaded allowed_270)
      (fun _ => port_up)
    = inr (acm, st)
    /\ printed (trace st)
       = [lit "Connected to Arduino on /dev/ttyACM0";
          lit "Configuration loaded successfully"]
    /\ servo_allowed_pos (config st) = 270.
Proof. cbv zeta. eexists. split; [reflexivity|]. by split. Qed.

(** ** The list of cards *)

(** X18. The console keeps the list of cards in order: if it holds no
    identifier twice and not the empty one, it still does after a line is
    entered, whatever the line; and no card is ever removed. *)
Theorem add_card_keeps_list_clean (typed : pystr) (st : Controller) :
  NoDup (authorized_cards (config st)) ->
  ([] ∉ authorized_cards (config st)) ->
  let st' := snd (process_user_input_add_card typed st) in
  NoDup (authorized_cards (config st'))
  /\ ([] ∉ authorized_cards (config st'))
  /\ authorized_cards (config st) ⊆ authorized_cards (config st').
Proof.
  intros Hnd Hne. cbv zeta.
  destruct (process_user_input_add_card_config typed st) as (-> & _).
  case_bool_decide as He; cbn [negb andb]; [done|].
  case_bool_decide as Hi; cbn [negb andb]; [done|].
  cbn [authorized_cards append_card]. split; [|split].
  - apply NoDup_app. split; [done|]. split; [|apply NoDup_singleton].
    intros x Hx ->%list_elem_of_singleton. done.
  - rewrite elem_of_app, list_elem_of_singleton. intros [?|?]; [done|].
    by apply He.
  - intros x Hx. apply elem_of_app. by left.
Qed.

Lemma add_card_keeps_list_clean_witness :
  let st := started FileNotFound port_up in
  let st' := snd (process_user_input_add_card (lit "A1B2C3D4") st) in
  NoDup (authorized_cards (config st))
  /\ ([] ∉ authorized_cards (config st))
  /\ NoDup (authorized_cards (config st')).
Proof.
  intros st st'.
  assert (Hnd : NoDup (authorized_cards (config st))) by by_evaluation.
  assert (Hne : [] ∉ authorized_cards (config st)) by by_evaluation.
  split; [exact Hnd|]. split; [exact Hne|].
  exact (proj1 (add_card_keeps_list_clean (lit "A1B2C3D4") st Hnd Hne)).
Defined.
